(** * ffprobe3: a shallow embedding of [ffprobe3/ffprobe.py]

    The development follows the Python source: the builtins the parser
    relies on ([str.strip], [str.split], [in], [int], [float], true
    division, [round], [re.search], [re.sub], the insertion-ordered
    [dict]) come first, then the classes [FFStream], [FFContainer] and
    [FFProbe], then the theorems.

    Text is modelled as [string]; one [ascii] stands for one code point
    in the range 0..255.  The two subprocess calls of [FFProbe.probe] are
    outside the model: [FFProbe] receives the captured line lists. *)

From Stdlib Require Import ZArith List String Ascii Bool Lia DecimalString.
Import ListNotations.
Open Scope string_scope.
Open Scope list_scope.

(** ** Exceptions and results *)

Inductive exn : Type :=
| ValueError
| ZeroDivisionError
| OverflowError
| AttributeError
| TypeError
| FFProbeError (msg : string).

Inductive result (A : Type) : Type :=
| Ok (a : A)
| Raise (e : exn).
Arguments Ok {A} a.
Arguments Raise {A} e.

Definition bind {A B : Type} (c : result A) (k : A -> result B) : result B :=
  match c with
  | Ok a => k a
  | Raise e => Raise e
  end.

Notation "x <- c ;; k" := (bind c (fun x => k))
  (at level 61, c at next level, right associativity).

(** [try: c except ValueError: h] *)
Definition except_ValueError {A : Type} (c : result A) (h : result A) : result A :=
  match c with
  | Raise ValueError => h
  | r => r
  end.

(** [try: c except (ValueError, ZeroDivisionError): h] *)
Definition except_Value_ZeroDivision {A : Type} (c : result A) (h : result A)
  : result A :=
  match c with
  | Raise ValueError => h
  | Raise ZeroDivisionError => h
  | r => r
  end.

(** ** Python builtins on text *)

Module Py.

(** [str.isspace] on the code points below 256: TAB..CR, FS..US, SPACE,
    NEL and NBSP. *)
Definition isspace (c : ascii) : bool :=
  let n := nat_of_ascii c in
  (((9 <=? n) && (n <=? 13)) || ((28 <=? n) && (n <=? 32))
   || (n =? 133) || (n =? 160))%nat.

Fixpoint lstrip (s : string) : string :=
  match s with
  | EmptyString => EmptyString
  | String c s' => if isspace c then lstrip s' else s
  end.

Fixpoint rstrip (s : string) : string :=
  match s with
  | EmptyString => EmptyString
  | String c s' =>
      match rstrip s' with
      | EmptyString => if isspace c then EmptyString else String c EmptyString
      | r => String c r
      end
  end.

(** [s.strip()] *)
Definition strip (s : string) : string := rstrip (lstrip s).

(** [s.split(sep)] for a one-character separator: every occurrence of
    [sep] cuts, and the result is never empty. *)
Fixpoint split (sep : ascii) (s : string) : list string :=
  match s with
  | EmptyString => [EmptyString]
  | String c s' =>
      if Ascii.eqb c sep then EmptyString :: split sep s'
      else match split sep s' with
           | p :: ps => String c p :: ps
           | [] => [String c EmptyString]
           end
  end.

(** [needle in s] *)
Fixpoint contains (needle s : string) : bool :=
  prefix needle s
  || match s with
     | EmptyString => false
     | String _ s' => contains needle s'
     end.

Definition isdigit (c : ascii) : bool :=
  let n := nat_of_ascii c in ((48 <=? n) && (n <=? 57))%nat.

Definition digit_val (c : ascii) : Z := Z.of_nat (nat_of_ascii c - 48).

(** The digits of an integer literal: [digit (["_"] digit)*].  [prev]
    tells whether the previous character was a digit. *)
Fixpoint int_digits (acc : Z) (prev : bool) (s : string) : option Z :=
  match s with
  | EmptyString => if prev then Some acc else None
  | String c s' =>
      if isdigit c then int_digits (10 * acc + digit_val c) true s'
      else if Ascii.eqb c "_" && prev then int_digits acc false s'
      else None
  end.

(** The number of digits in a text. *)
Fixpoint count_digits (s : string) : Z :=
  match s with
  | EmptyString => 0
  | String c s' => (if isdigit c then 1 else 0) + count_digits s'
  end.

(** [sys.get_int_max_str_digits()], at its default. *)
Definition max_str_digits : Z := 4300.

(** [int(s)] for a [str] in base 10: surrounding whitespace is dropped,
    one sign is allowed, and a text with more digits than
    [max_str_digits] is refused; [None] stands for [ValueError]. *)
Definition int (s : string) : option Z :=
  let r := strip s in
  if (max_str_digits <? count_digits r)%Z then None
  else match r with
       | String "+" r' => int_digits 0 false r'
       | String "-" r' => option_map Z.opp (int_digits 0 false r')
       | _ => int_digits 0 false r
       end.

End Py.

(** ** Values and the instance dictionary *)

(** The instance dictionary holds the raw text fields and the derived
    [framerate], which is an integer or [None]. *)
Inductive value : Type :=
| VStr (s : string)
| VInt (z : Z)
| VNone.

Definition value_eqb (a b : value) : bool :=
  match a, b with
  | VStr s, VStr t => String.eqb s t
  | VInt x, VInt y => Z.eqb x y
  | VNone, VNone => true
  | _, _ => false
  end.

(** A [dict] keeps its keys in insertion order; assigning to a key that
    is present keeps the key's position. *)
Definition dict : Type := list (string * value).

Fixpoint dict_get (d : dict) (k : string) : option value :=
  match d with
  | [] => None
  | (k', v) :: d' => if String.eqb k' k then Some v else dict_get d' k
  end.

Fixpoint dict_set (d : dict) (k : string) (v : value) : dict :=
  match d with
  | [] => [(k, v)]
  | (k', v') :: d' =>
      if String.eqb k' k then (k', v) :: d' else (k', v') :: dict_set d' k v
  end.

(** [d.get(k, default)] *)
Definition get_default (d : dict) (k : string) (default : value) : value :=
  match dict_get d k with
  | Some v => v
  | None => default
  end.

(** [int(v)] on a dictionary value. *)
Definition int_of_value (v : value) : result Z :=
  match v with
  | VStr s => match Py.int s with
              | Some z => Ok z
              | None => Raise ValueError
              end
  | VInt z => Ok z
  | VNone => Raise TypeError
  end.

(** [self.name(...)] for a method [name] of the class of [self]: the
    attribute is looked up in the instance dictionary before the class,
    so an entry named [name] hides the method, and calling the entry (a
    [str], an [int] or [None]) raises [TypeError].  [body] is the
    function of the class. *)
Definition invoke {A : Type} (self : dict) (name : string)
  (body : dict -> result A) : result A :=
  match dict_get self name with
  | Some _ => Raise TypeError
  | None => body self
  end.

(** [str(v)] on a dictionary value; an [int] with more decimal digits
    than [Py.max_str_digits] is refused with [ValueError]. *)
Definition str_of_value (v : value) : result string :=
  match v with
  | VStr s => Ok s
  | VInt z =>
      if (10 ^ Py.max_str_digits <=? Z.abs z)%Z then Raise ValueError
      else Ok (NilZero.string_of_int (Z.to_int z))
  | VNone => Ok "None"
  end.


(** [KeyError] is raised by the two methods that index the dictionary
    without a default; it is kept apart from the other exceptions. *)
Inductive lookup (A : Type) : Type :=
| Found (a : A)
| KeyError (key : string).
Arguments Found {A} a.
Arguments KeyError {A} key.

(** [d[k]] *)
Definition getitem (d : dict) (k : string) : lookup value :=
  match dict_get d k with
  | Some v => Found v
  | None => KeyError k
  end.

Definition prepend (s : string) (r : lookup (result string))
  : lookup (result string) :=
  match r with
  | Found (Ok t) => Found (Ok (String.append s t))
  | other => other
  end.

(** [template.format] with keyword arguments, read from left to right:
    [{name}] is replaced by the [str] of the argument [name], which
    [get] computes; a doubled brace stands for itself, a lone brace is a
    [ValueError].  [field] holds the name being read.  The field names
    of the templates of the program are plain; attribute and index
    access, conversions and format specifications are not modelled. *)
Fixpoint format_go (get : string -> lookup (result string))
  (field : option string) (template : string) : lookup (result string) :=
  match template with
  | EmptyString =>
      match field with
      | None => Found (Ok EmptyString)
      | Some _ => Found (Raise ValueError)
      end
  | String c r =>
      match field with
      | Some name =>
          if Ascii.eqb c "}" then
            match get name with
            | Found (Ok t) => prepend t (format_go get None r)
            | other => other
            end
          else format_go get (Some (String.append name (String c EmptyString))) r
      | None =>
          if Ascii.eqb c "{" then
            match r with
            | String "{" r' => prepend "{" (format_go get None r')
            | _ => format_go get (Some EmptyString) r
            end
          else if Ascii.eqb c "}" then
            match r with
            | String "}" r' => prepend "}" (format_go get None r')
            | _ => Found (Raise ValueError)
            end
          else prepend (String c EmptyString) (format_go get None r)
      end
  end.

(** The [str] of the entry [k] of a dictionary passed as keyword
    arguments. *)
Definition field_text (d : dict) (k : string) : lookup (result string) :=
  match getitem d k with
  | Found v => Found (str_of_value v)
  | KeyError key => KeyError key
  end.

(** [template.format] with the entries of [d] as keyword arguments. *)
Definition format (template : string) (d : dict) : lookup (result string) :=
  format_go (field_text d) None template.

(** ** Binary64 arithmetic

    A finite float is [m * 2^e]; the sign of zero is not tracked (no
    operation of the program observes it). *)

Module Flt.
Local Open Scope Z_scope.

Inductive float : Type :=
| Finite (m e : Z)
| Infinity (neg : bool)
| NaN.

(** [n / d] rounded to the nearest integer, ties to the even one
    ([0 < d]). *)
Definition rhe_div (n d : Z) : Z :=
  let q := n / d in
  let r := n mod d in
  if 2 * r <? d then q
  else if d <? 2 * r then q + 1
  else if Z.even q then q else q + 1.

(** [floor (log2 (n / d))] for positive [n] and [d]. *)
Definition ilog2_ratio (n d : Z) : Z :=
  let l := Z.log2 n - Z.log2 d in
  if (if 0 <=? l then d * 2 ^ l <=? n else d <=? n * 2 ^ (- l))
  then l else l - 1.

(** The binary64 number nearest to [n / d] ([0 < d]), ties to even, as
    mantissa and exponent: 53 bits of precision, least exponent -1074,
    the exponent range not bounded above. *)
Definition round_ratio (n d : Z) : Z * Z :=
  if n =? 0 then (0, 0)
  else
    let a := Z.abs n in
    let e := Z.max (ilog2_ratio a d - 52) (-1074) in
    let m := if 0 <=? e then rhe_div a (d * 2 ^ e)
             else rhe_div (a * 2 ^ (- e)) d in
    (Z.sgn n * m, e).

(** The rounded value lies beyond the largest binary64 number. *)
Definition overflows (x : Z * Z) : bool :=
  (0 <=? snd x) && (2 ^ 1024 <=? Z.abs (fst x) * 2 ^ snd x).

(** [a / b] on two [int]s: the correctly rounded quotient. *)
Definition int_truediv (a b : Z) : result float :=
  if b =? 0 then Raise ZeroDivisionError
  else
    let x := round_ratio (Z.sgn b * a) (Z.abs b) in
    if overflows x then Raise OverflowError
    else Ok (Finite (fst x) (snd x)).

(** [x / y] on two finite floats, [y] not zero. *)
Definition finite_div (m1 e1 m2 e2 : Z) : float :=
  let n := Z.sgn m2 * m1 * 2 ^ Z.max 0 (e1 - e2) in
  let d := Z.abs m2 * 2 ^ Z.max 0 (e2 - e1) in
  let x := round_ratio n d in
  if overflows x then Infinity (n <? 0) else Finite (fst x) (snd x).

(** [x / c] for a float [x] and an [int] [c]: [c] is converted first. *)
Definition float_truediv_int (x : float) (c : Z) : result float :=
  let y := round_ratio c 1 in
  if overflows y then Raise OverflowError
  else if c =? 0 then Raise ZeroDivisionError
  else match x with
       | Finite m e => Ok (finite_div m e (fst y) (snd y))
       | Infinity neg => Ok (Infinity (xorb neg (c <? 0)))
       | NaN => Ok NaN
       end.

(** [round(x)] on a float. *)
Definition round (x : float) : result Z :=
  match x with
  | Finite m e =>
      Ok (if 0 <=? e then m * 2 ^ e else rhe_div m (2 ^ (- e)))
  | Infinity _ => Raise OverflowError
  | NaN => Raise ValueError
  end.

(** Scans [digit (["_"] digit)*] from the front of [s]: the digits are
    accumulated onto [acc], [cnt] counts them. *)
Fixpoint scan_digits (acc : Z) (cnt : nat) (s : string) : Z * nat * string :=
  match s with
  | EmptyString => (acc, cnt, s)
  | String c s' =>
      if Py.isdigit c then scan_digits (10 * acc + Py.digit_val c) (S cnt) s'
      else if Ascii.eqb c "_" && Nat.ltb 0 cnt then
        match s' with
        | String c2 _ => if Py.isdigit c2 then scan_digits acc cnt s'
                         else (acc, cnt, s)
        | EmptyString => (acc, cnt, s)
        end
      else (acc, cnt, s)
  end.

Definition lower (c : ascii) : ascii :=
  let n := nat_of_ascii c in
  if (Nat.leb 65 n && Nat.leb n 90)%bool then ascii_of_nat (n + 32) else c.

Fixpoint lowercase (s : string) : string :=
  match s with
  | EmptyString => EmptyString
  | String c s' => String (lower c) (lowercase s')
  end.

(** The optional exponent of a float literal, which must reach the end
    of the text. *)
Definition scan_exponent (s : string) : option Z :=
  match s with
  | EmptyString => Some 0
  | String c r =>
      if Ascii.eqb (lower c) "e" then
        let '(neg, r') :=
          match r with
          | String "+" t => (false, t)
          | String "-" t => (true, t)
          | _ => (false, r)
          end in
        match scan_digits 0 0 r' with
        | (x, S _, EmptyString) => Some (if neg then - x else x)
        | _ => None
        end
      else None
  end.

(** An unsigned float literal [number [exponent]] as a decimal
    [m * 10^x]. *)
Definition scan_number (s : string) : option (Z * Z) :=
  let '(m1, c1, r1) := scan_digits 0 0 s in
  let '(m2, c2, r2) :=
    match r1 with
    | String "." t => scan_digits m1 0 t
    | _ => (m1, O, r1)
    end in
  match (c1 + c2)%nat with
  | O => None
  | S _ => match scan_exponent r2 with
           | Some x => Some (m2, x - Z.of_nat c2)
           | None => None
           end
  end.

Definition of_decimal (neg : bool) (m x : Z) : float :=
  let y := round_ratio (m * 10 ^ Z.max 0 x) (10 ^ Z.max 0 (- x)) in
  if overflows y then Infinity neg
  else Finite (if neg then - fst y else fst y) (snd y).

(** [float(s)] for a [str]; [None] stands for [ValueError]. *)
Definition of_string (s : string) : option float :=
  let '(neg, r) :=
    match Py.strip s with
    | String "+" t => (false, t)
    | String "-" t => (true, t)
    | t => (false, t)
    end in
  let l := lowercase r in
  if String.eqb l "inf" || String.eqb l "infinity" then Some (Infinity neg)
  else if String.eqb l "nan" then Some NaN
  else match scan_number r with
       | Some (m, x) => Some (of_decimal neg m x)
       | None => None
       end.

End Flt.

(** ** Regular expressions

    The two patterns of the program are sequences of character classes,
    each with a greedy repetition count; [re.search] is leftmost with
    backtracking. *)

Module Re.

Record atom : Type := Atom {
  cls : ascii -> bool;
  rmin : nat;
  rmax : option nat
}.

Definition regex : Type := list atom.

(** Between [lo] and [hi] characters of class [p], as many as possible,
    then the continuation [k]; the result is the number of characters
    matched. *)
Fixpoint match_rep (p : ascii -> bool) (k : string -> option nat)
  (lo hi : nat) (s : string) : option nat :=
  let stop := match lo with O => k s | S _ => None end in
  match hi with
  | O => stop
  | S hi' =>
      match s with
      | EmptyString => stop
      | String c s' =>
          if p c then
            match match_rep p k (Nat.pred lo) hi' s' with
            | Some n => Some (S n)
            | None => stop
            end
          else stop
      end
  end.

(** A match of the whole pattern starting at the front of [s]. *)
Fixpoint match_here (re : regex) (s : string) : option nat :=
  match re with
  | [] => Some O
  | a :: re' =>
      match_rep (cls a) (match_here re') (rmin a)
        (match rmax a with Some h => h | None => String.length s end) s
  end.

(** [re.search(s)]: start and length of the leftmost match. *)
Fixpoint search (re : regex) (s : string) : option (nat * nat) :=
  match match_here re s with
  | Some n => Some (O, n)
  | None =>
      match s with
      | EmptyString => None
      | String _ s' =>
          match search re s' with
          | Some (i, n) => Some (S i, n)
          | None => None
          end
      end
  end.

(** [re.search(s).group()], [None] when there is no match. *)
Definition search_group (re : regex) (s : string) : option string :=
  match search re s with
  | Some (i, n) => Some (substring i n s)
  | None => None
  end.

Definition one (p : ascii -> bool) : atom := Atom p 1 (Some 1).

Fixpoint lit (s : string) : regex :=
  match s with
  | EmptyString => []
  | String c s' => one (Ascii.eqb c) :: lit s'
  end.

Definition lower_az (c : ascii) : bool :=
  let n := nat_of_ascii c in (Nat.leb 97 n && Nat.leb n 122)%bool.

(** [re.sub("[^0-9]", "", s)] *)
Fixpoint sub_non_digits (s : string) : string :=
  match s with
  | EmptyString => EmptyString
  | String c s' =>
      if Py.isdigit c then String c (sub_non_digits s') else sub_non_digits s'
  end.

End Re.

(** ** class FFStream *)

Module FFStream.

(** An instance is its [__dict__]. *)
Definition t : Type := dict.

(** The accumulator of [functools.reduce(operator.truediv, ...)]: the
    first element is an [int], every quotient a float. *)
Inductive num : Type :=
| NInt (z : Z)
| NFloat (x : Flt.float).

Definition truediv (a : num) (b : Z) : result num :=
  match a with
  | NInt z => x <- Flt.int_truediv z b ;; Ok (NFloat x)
  | NFloat x => y <- Flt.float_truediv_int x b ;; Ok (NFloat y)
  end.

Definition int_of_piece (p : string) : result Z :=
  match Py.int p with
  | Some z => Ok z
  | None => Raise ValueError
  end.

(** The loop of [reduce]: [map(int, ...)] is lazy, so each piece is
    converted just before it is divided by. *)
Fixpoint reduce_loop (acc : num) (pieces : list string) : result num :=
  match pieces with
  | [] => Ok acc
  | p :: ps =>
      b <- int_of_piece p ;;
      acc' <- truediv acc b ;;
      reduce_loop acc' ps
  end.

Definition reduce_truediv (pieces : list string) : result num :=
  match pieces with
  | [] => Raise TypeError
  | p :: ps => a <- int_of_piece p ;; reduce_loop (NInt a) ps
  end.

Definition round_num (n : num) : result Z :=
  match n with
  | NInt z => Ok z
  | NFloat x => Flt.round x
  end.

(** [v.split('/')] on a dictionary value. *)
Definition split_value (v : value) : result (list string) :=
  match v with
  | VStr s => Ok (Py.split "/" s)
  | _ => Raise AttributeError
  end.

(** The [try] block of [__init__] with its handler. *)
Definition derive_framerate (d : dict) : result value :=
  except_Value_ZeroDivision
    (pieces <- split_value (get_default d "avg_frame_rate" (VStr "")) ;;
     n <- reduce_truediv pieces ;;
     z <- round_num n ;;
     Ok (VInt z))
    (Ok VNone).

(** One turn of the loop of [__init__]: the unpacking [key, value, *_]
    needs at least two pieces. *)
Definition update_line (d : dict) (line : string) : result dict :=
  match Py.split "=" (Py.strip line) with
  | key :: val :: _ =>
      let d1 := dict_set d key (VStr val) in
      fr <- derive_framerate d1 ;;
      Ok (dict_set d1 "framerate" fr)
  | _ => Raise ValueError
  end.

Fixpoint init_loop (d : dict) (data_lines : list string) : result dict :=
  match data_lines with
  | [] => Ok d
  | line :: rest => d' <- update_line d line ;; init_loop d' rest
  end.

(** [FFStream(data_lines)] *)
Definition __init__ (data_lines : list string) : result t :=
  init_loop [] data_lines.

Definition codec_type_is (self : t) (kind : string) : bool :=
  value_eqb (get_default self "codec_type" VNone) (VStr kind).

Definition is_audio (self : t) : bool := codec_type_is self "audio".
Definition is_video (self : t) : bool := codec_type_is self "video".
Definition is_subtitle (self : t) : bool := codec_type_is self "subtitle".
Definition is_attachment (self : t) : bool := codec_type_is self "attachment".

(** [float(v)] on a dictionary value. *)
Definition float_of_value (v : value) : result Flt.float :=
  match v with
  | VStr s => match Flt.of_string s with
              | Some x => Ok x
              | None => Raise ValueError
              end
  | VInt z => let y := Flt.round_ratio z 1 in
              if Flt.overflows y then Raise OverflowError
              else Ok (Flt.Finite (fst y) (snd y))
  | VNone => Raise TypeError
  end.

(** The calls [self.is_audio()], [self.is_video()], ... on an instance;
    [is_audio], [is_video], ... above are the functions of the class. *)
Definition call_is_audio (self : t) : result bool :=
  invoke self "is_audio" (fun s => Ok (is_audio s)).
Definition call_is_video (self : t) : result bool :=
  invoke self "is_video" (fun s => Ok (is_video s)).
Definition call_is_subtitle (self : t) : result bool :=
  invoke self "is_subtitle" (fun s => Ok (is_subtitle s)).
Definition call_is_attachment (self : t) : result bool :=
  invoke self "is_attachment" (fun s => Ok (is_attachment s)).

(** [self.is_video() or self.is_audio()] *)
Definition video_or_audio (self : t) : result bool :=
  v <- call_is_video self ;;
  if v then Ok true else call_is_audio self.

(** The functions [frames], [duration_seconds] and [bit_rate] of the
    class. *)
Definition frames (self : t) : result Z :=
  va <- video_or_audio self ;;
  if va then
    except_ValueError
      (int_of_value (get_default self "nb_frames" (VStr "")))
      (Raise (FFProbeError "None integer frame count"))
  else Ok 0%Z.

Definition duration_seconds (self : t) : result Flt.float :=
  va <- video_or_audio self ;;
  if va then
    except_ValueError
      (float_of_value (get_default self "duration" (VStr "")))
      (Raise (FFProbeError "None numeric duration"))
  else Ok (Flt.Finite 0 0).

Definition bit_rate (self : t) : result Z :=
  except_ValueError
    (int_of_value (get_default self "bit_rate" (VStr "")))
    (Raise (FFProbeError "None integer bit_rate")).

(** The calls [stream.frames()], [stream.duration_seconds()] and
    [stream.bit_rate()]. *)
Definition call_frames (self : t) : result Z := invoke self "frames" frames.
Definition call_duration_seconds (self : t) : result Flt.float :=
  invoke self "duration_seconds" duration_seconds.
Definition call_bit_rate (self : t) : result Z :=
  invoke self "bit_rate" bit_rate.

(** The template chosen by [__repr__]. *)
Definition template (self : t) : result string :=
  v <- call_is_video self ;;
  if v then
    Ok "<Stream: #{index} [{codec_type}] {codec_long_name}, {framerate}, ({width}x{height})>"
  else
    a <- call_is_audio self ;;
    if a then
      Ok "<Stream: #{index} [{codec_type}] {codec_long_name}, channels: {channels} ({channel_layout}), {sample_rate}Hz> "
    else
      s <- call_is_subtitle self ;;
      sa <- (if s then Ok true else call_is_attachment self) ;;
      if sa then Ok "<Stream: #{index} [{codec_type}] {codec_long_name}>"
      else Ok "".

(** The function [__repr__] of the class, which [repr(stream)] calls
    whatever the instance dictionary holds. *)
Definition __repr__ (self : t) : lookup (result string) :=
  match template self with
  | Raise e => Found (Raise e)
  | Ok t => format t self
  end.



(** The functions [pixel_format], [language], [codec],
    [codec_description] and [codec_tag] of the class. *)
Definition pixel_format (self : t) : value := get_default self "pix_fmt" VNone.
Definition language (self : t) : value := get_default self "TAG:language" VNone.
Definition codec (self : t) : value := get_default self "codec_name" VNone.
Definition codec_description (self : t) : value :=
  get_default self "codec_long_name" VNone.
Definition codec_tag (self : t) : value :=
  get_default self "codec_tag_string" VNone.

(** The calls [stream.pixel_format()], ... *)
Definition call_pixel_format (self : t) : result value :=
  invoke self "pixel_format" (fun s => Ok (pixel_format s)).
Definition call_language (self : t) : result value :=
  invoke self "language" (fun s => Ok (language s)).
Definition call_codec (self : t) : result value :=
  invoke self "codec" (fun s => Ok (codec s)).
Definition call_codec_description (self : t) : result value :=
  invoke self "codec_description" (fun s => Ok (codec_description s)).
Definition call_codec_tag (self : t) : result value :=
  invoke self "codec_tag" (fun s => Ok (codec_tag s)).

End FFStream.

(** ** class FFContainer *)

Module FFContainer.

Definition t : Type := dict.

(** One turn of the loop of [__init__]: the unpacking [key, value]
    needs exactly two pieces. *)
Definition update_line (d : dict) (line : string) : result dict :=
  match Py.split "=" (Py.strip line) with
  | [key; val] => Ok (dict_set d key (VStr val))
  | _ => Raise ValueError
  end.

Fixpoint init_loop (d : dict) (data_lines : list string) : result dict :=
  match data_lines with
  | [] => Ok d
  | line :: rest => d' <- update_line d line ;; init_loop d' rest
  end.

(** [FFContainer(data_lines)] *)
Definition __init__ (data_lines : list string) : result t :=
  init_loop [] data_lines.

(** The function [container_bitrate] of the class. *)
Definition container_bitrate (self : t) : result Z :=
  except_ValueError
    (int_of_value (get_default self "container_bitrate" (VStr "")))
    (Raise (FFProbeError "None integer container_bitrate")).

(** The call [record.container_bitrate()]. *)
Definition call_container_bitrate (self : t) : result Z :=
  invoke self "container_bitrate" container_bitrate.

End FFContainer.

(** ** class FFProbe *)

Module FFProbe.

(** [re.compile(r'\ \d{1,8}\ [a-z]b')] *)
Definition bit_re : Re.regex :=
  Re.lit " " ++ [Re.Atom Py.isdigit 1 (Some 8)] ++ Re.lit " "
  ++ [Re.one Re.lower_az] ++ Re.lit "b".

(** [re.compile(r'Duration: [0=9]+:')] *)
Definition stream_re : Re.regex :=
  Re.lit "Duration: "
  ++ [Re.Atom (fun c => Ascii.eqb c "0" || Ascii.eqb c "=" || Ascii.eqb c "9")
        1 None]
  ++ Re.lit ":".

(** The variables the two block loops share: the flag [stream], the
    buffer [data_lines] (unbound until the first opening marker, and
    never read before) and [self.streams]. *)
Record parser : Type := Parser {
  stream : bool;
  data_lines : list string;
  parsed : list FFStream.t
}.

Definition initial : parser := Parser false [] [].

(** The body of the loops over [stdout] and [stderr]. *)
Definition step (st : parser) (line : string) : result parser :=
  if Py.contains "[STREAM]" line then
    Ok (Parser true [] (parsed st))
  else if Py.contains "[/STREAM]" line && stream st then
    s <- FFStream.__init__ (data_lines st) ;;
    Ok (Parser false (data_lines st) (parsed st ++ [s]))
  else if stream st then
    Ok (Parser true (data_lines st ++ [line]) (parsed st))
  else Ok st.

Fixpoint scan (st : parser) (lines : list string) : result parser :=
  match lines with
  | [] => Ok st
  | line :: rest => st' <- step st line ;; scan st' rest
  end.

(** The four lists filled by the classification loop. *)
Record kinds : Type := Kinds {
  k_video : list FFStream.t;
  k_audio : list FFStream.t;
  k_subtitle : list FFStream.t;
  k_attachment : list FFStream.t
}.

(** The body of the classification loop: each test is a method call on
    the record. *)
Definition classify_one (k : kinds) (s : FFStream.t) : result kinds :=
  a <- FFStream.call_is_audio s ;;
  if a then
    Ok (Kinds (k_video k) (k_audio k ++ [s]) (k_subtitle k) (k_attachment k))
  else
    v <- FFStream.call_is_video s ;;
    if v then
      Ok (Kinds (k_video k ++ [s]) (k_audio k) (k_subtitle k) (k_attachment k))
    else
      u <- FFStream.call_is_subtitle s ;;
      if u then
        Ok (Kinds (k_video k) (k_audio k) (k_subtitle k ++ [s])
              (k_attachment k))
      else
        t <- FFStream.call_is_attachment s ;;
        if t then
          Ok (Kinds (k_video k) (k_audio k) (k_subtitle k)
                (k_attachment k ++ [s]))
        else Ok k.

Fixpoint classify_loop (k : kinds) (streams : list FFStream.t)
  : result kinds :=
  match streams with
  | [] => Ok k
  | s :: rest => k' <- classify_one k s ;; classify_loop k' rest
  end.

Definition classify (streams : list FFStream.t) : result kinds :=
  classify_loop (Kinds [] [] [] []) streams.

(** The body of the loop over [mkverr]. *)
Definition container_step (acc : list FFContainer.t) (line : string)
  : result (list FFContainer.t) :=
  match Re.search stream_re line with
  | Some _ =>
      match Re.search_group bit_re line with
      | None => Raise AttributeError
      | Some bit_match =>
          let bit_match := Re.sub_non_digits bit_match in
          c <- FFContainer.__init__
                 [String.append "container_bitrate=" bit_match] ;;
          Ok (acc ++ [c])
      end
  | None => Ok acc
  end.

Fixpoint container_scan (acc : list FFContainer.t) (lines : list string)
  : result (list FFContainer.t) :=
  match lines with
  | [] => Ok acc
  | line :: rest => acc' <- container_step acc line ;; container_scan acc' rest
  end.

Record t : Type := Probe {
  streams : list FFStream.t;
  video : list FFStream.t;
  audio : list FFStream.t;
  subtitle : list FFStream.t;
  attachment : list FFStream.t;
  container : list FFContainer.t
}.

(** [FFProbe(path)], given the lines captured from
    [probe(path, '-show_streams')] ([stdout], [stderr]) and the
    diagnostic lines of [probe(path)] ([mkverr]). *)
Definition __init__ (stdout stderr mkverr : list string) : result t :=
  st1 <- scan initial stdout ;;
  st2 <- scan st1 stderr ;;
  k <- classify (parsed st2) ;;
  cs <- container_scan [] mkverr ;;
  Ok (Probe (parsed st2) (k_video k) (k_audio k) (k_subtitle k)
        (k_attachment k) cs).

(** The [repr] of the records of a list, in order; the first one that
    raises stops the list. *)
Fixpoint repr_items (l : list FFStream.t) : lookup (result (list string)) :=
  match l with
  | [] => Found (Ok [])
  | r :: rs =>
      match FFStream.__repr__ r with
      | KeyError k => KeyError k
      | Found (Raise e) => Found (Raise e)
      | Found (Ok s) =>
          match repr_items rs with
          | Found (Ok ss) => Found (Ok (s :: ss))
          | other => other
          end
      end
  end.

(** [', '.join(items)] *)
Fixpoint join_comma (items : list string) : string :=
  match items with
  | [] => EmptyString
  | [s] => s
  | s :: rest => String.append s (String.append ", " (join_comma rest))
  end.

(** [str(l)] for a list of records. *)
Definition str_list (l : list FFStream.t) : lookup (result string) :=
  match repr_items l with
  | Found (Ok ss) =>
      Found (Ok (String.append "[" (String.append (join_comma ss) "]")))
  | Found (Raise e) => Found (Raise e)
  | KeyError k => KeyError k
  end.

(** The keyword arguments [vars(self)] that the template of [__repr__]
    names: the four partition lists. *)
Definition var_text (self : t) (name : string) : lookup (result string) :=
  if String.eqb name "video" then str_list (video self)
  else if String.eqb name "audio" then str_list (audio self)
  else if String.eqb name "subtitle" then str_list (subtitle self)
  else if String.eqb name "attachment" then str_list (attachment self)
  else KeyError name.

(** [__repr__] *)
Definition __repr__ (self : t) : lookup (result string) :=
  format_go (var_text self) None
    "<FFprobe: {video}, {audio}, {subtitle}, {attachment}>".

End FFProbe.

(** ** Vocabulary of the statements *)

(** Every entry but the derived [framerate] holds text. *)
Definition text_valued (d : dict) : Prop :=
  forall k v, dict_get d k = Some v -> k <> "framerate" -> exists s, v = VStr s.

(** The record's raw [codec_type] is one of the four literals. *)
Definition recognized (self : FFStream.t) : Prop :=
  exists kind,
    In kind ["video"; "audio"; "subtitle"; "attachment"]
    /\ dict_get self "codec_type" = Some (VStr kind).

Definition in_exactly_one (r : FFStream.t) (p : FFProbe.t) : Prop :=
  (In r (FFProbe.video p) /\ ~ In r (FFProbe.audio p)
   /\ ~ In r (FFProbe.subtitle p) /\ ~ In r (FFProbe.attachment p))
  \/ (~ In r (FFProbe.video p) /\ In r (FFProbe.audio p)
      /\ ~ In r (FFProbe.subtitle p) /\ ~ In r (FFProbe.attachment p))
  \/ (~ In r (FFProbe.video p) /\ ~ In r (FFProbe.audio p)
      /\ In r (FFProbe.subtitle p) /\ ~ In r (FFProbe.attachment p))
  \/ (~ In r (FFProbe.video p) /\ ~ In r (FFProbe.audio p)
      /\ ~ In r (FFProbe.subtitle p) /\ In r (FFProbe.attachment p)).

Definition in_no_partition (r : FFStream.t) (p : FFProbe.t) : Prop :=
  ~ In r (FFProbe.video p) /\ ~ In r (FFProbe.audio p)
  /\ ~ In r (FFProbe.subtitle p) /\ ~ In r (FFProbe.attachment p).

(** The records appended to [self.streams] while the loop over
    [stderr] runs. *)
Definition stderr_blocks (stdout stderr : list string)
  : result (list FFStream.t) :=
  st1 <- FFProbe.scan FFProbe.initial stdout ;;
  st2 <- FFProbe.scan st1 stderr ;;
  Ok (skipn (List.length (FFProbe.parsed st1)) (FFProbe.parsed st2)).

(** No line of [lines] contains the closing marker. *)
Definition no_close (lines : list string) : Prop :=
  forall l, In l lines -> Py.contains "[/STREAM]" l = false.

(** No line of [lines] contains a marker. *)
Definition no_marker (lines : list string) : Prop :=
  forall l, In l lines ->
    Py.contains "[STREAM]" l = false /\ Py.contains "[/STREAM]" l = false.

(** The line matches the duration pattern [stream_re]. *)
Definition announces (line : string) : bool :=
  match Re.search FFProbe.stream_re line with
  | Some _ => true
  | None => false
  end.

(** The line has a match of the bit-rate pattern [bit_re]. *)
Definition has_bit_rate (line : string) : bool :=
  match Re.search FFProbe.bit_re line with
  | Some _ => true
  | None => false
  end.

(** The container record built from a line: the digits of the first
    match of [bit_re]. *)
Definition recovered (line : string) : FFContainer.t :=
  [("container_bitrate",
    VStr (match Re.search_group FFProbe.bit_re line with
          | Some m => Re.sub_non_digits m
          | None => ""
          end))].

Definition duration_line : string :=
  "Duration: 00:01:02.34, start: 0.000000, bitrate: 128 kb/s".

(** Modelled from the spec: the re-serialization of the raw field
    mapping of a record, which the repository does not have.  The raw
    fields are the text entries of the dictionary other than the derived
    [framerate], in the order of the dictionary; each is written back as
    [name=value]. *)
Definition raw_fields (d : dict) : list (string * string) :=
  flat_map (fun kv =>
              match kv with
              | (k, VStr s) => if String.eqb k "framerate" then [] else [(k, s)]
              | _ => []
              end) d.

Definition field_line (kv : string * string) : string :=
  String.append (fst kv) (String "=" (snd kv)).

Definition serialize (d : dict) : list string := map field_line (raw_fields d).

(** A field that a line [name=value] carries unchanged: one equals
    sign, nothing for [strip] to remove, a name other than that of the
    derived entry. *)
Definition plain_field (kv : string * string) : Prop :=
  Py.contains "=" (fst kv) = false
  /\ Py.contains "=" (snd kv) = false
  /\ Py.strip (field_line kv) = field_line kv
  /\ fst kv <> "framerate".

(** The errors that the [try] block can raise. *)
Definition arithmetic_error (e : exn) : Prop :=
  e = ValueError \/ e = ZeroDivisionError \/ e = OverflowError.

(** The errors that the construction of a stream record lets through. *)
Definition construction_error (e : exn) : Prop :=
  e = ValueError \/ e = OverflowError.


(** ** Vocabulary of the further statements *)

(** No line of [lines] contains the opening marker. *)
Definition no_open (lines : list string) : Prop :=
  forall l, In l lines -> Py.contains "[STREAM]" l = false.

(** The lines of a channel made of whole blocks: before each block some
    lines without an opening marker, then the opening marker, the body
    and the closing marker. *)
Fixpoint render (bs : list (list string * list string)) : list string :=
  match bs with
  | [] => []
  | (junk, body) :: bs' =>
      junk ++ "[STREAM]" :: body ++ "[/STREAM]" :: render bs'
  end.

Definition well_formed (bs : list (list string * list string)) : Prop :=
  forall jb, In jb bs -> no_open (fst jb) /\ no_marker (snd jb).

(** The records of a list of block bodies, built in order; the first
    error stops the construction. *)
Fixpoint construct_all (bodies : list (list string))
  : result (list FFStream.t) :=
  match bodies with
  | [] => Ok []
  | b :: bs =>
      s <- FFStream.__init__ b ;;
      ss <- construct_all bs ;;
      Ok (s :: ss)
  end.

(** The result object for a list of records and a list of container
    records. *)
Definition probe_of (rs : list FFStream.t) (cs : list FFContainer.t)
  : FFProbe.t :=
  FFProbe.Probe rs (filter FFStream.is_video rs) (filter FFStream.is_audio rs)
    (filter FFStream.is_subtitle rs) (filter FFStream.is_attachment rs) cs.

(** The value of the last line of [data_lines] whose name is [name]. *)
Fixpoint last_value (name : string) (data_lines : list string)
  : option string :=
  match data_lines with
  | [] => None
  | line :: rest =>
      match last_value name rest with
      | Some v => Some v
      | None =>
          match Py.split "=" (Py.strip line) with
          | key :: val :: _ => if String.eqb key name then Some val else None
          | _ => None
          end
      end
  end.

Definition text_or_none (o : option string) : value :=
  match o with
  | Some s => VStr s
  | None => VNone
  end.

(** The dictionary has an entry named [k]. *)
Definition has_key (d : dict) (k : string) : bool :=
  match dict_get d k with
  | Some _ => true
  | None => false
  end.

(** The record has an entry named like one of the kind tests that the
    classification calls on it: the tests are called in the order
    audio, video, subtitle, attachment, up to the first that holds. *)
Definition hides_kind_test (r : FFStream.t) : bool :=
  has_key r "is_audio"
  || negb (FFStream.is_audio r)
     && (has_key r "is_video"
         || negb (FFStream.is_video r)
            && (has_key r "is_subtitle"
                || negb (FFStream.is_subtitle r)
                   && has_key r "is_attachment")).



(** What the call of the accessor [method], which reads the entry
    [field], gives on the record of [data_lines]: a line named like the
    accessor hides it. *)
Definition accessed (data_lines : list string) (method field : string)
  : result value :=
  match last_value method data_lines with
  | Some _ => Raise TypeError
  | None => Ok (text_or_none (last_value field data_lines))
  end.

(** Two parser states that differ only in what was parsed before and in
    a buffer that is not in use. *)
Definition shifted (ps : list FFStream.t) (a b : FFProbe.parser) : Prop :=
  FFProbe.stream a = FFProbe.stream b
  /\ (FFProbe.stream a = true -> FFProbe.data_lines a = FFProbe.data_lines b)
  /\ FFProbe.parsed a = ps ++ FFProbe.parsed b.

Definition shifted_results (ps : list FFStream.t)
  (ra rb : result FFProbe.parser) : Prop :=
  match ra, rb with
  | Ok a, Ok b => shifted ps a b
  | Raise e, Raise e' => e = e'
  | _, _ => False
  end.

(** The record has an entry named like one of the kind tests that
    [__repr__] calls on it: video, audio, subtitle, attachment, up to
    the first that holds. *)
Definition hides_repr_test (r : FFStream.t) : bool :=
  has_key r "is_video"
  || negb (FFStream.is_video r)
     && (has_key r "is_audio"
         || negb (FFStream.is_audio r)
            && (has_key r "is_subtitle"
                || negb (FFStream.is_subtitle r)
                   && has_key r "is_attachment")).

(** A text made of literal pieces, each followed by the [str] of an
    entry of [d], and a closing piece, built from left to right: the
    first entry that is missing gives [KeyError], the first that [str]
    refuses raises. *)
Fixpoint fill (d : dict) (parts : list (string * string)) (closing : string)
  : lookup (result string) :=
  match parts with
  | [] => Found (Ok closing)
  | (lit, field) :: rest =>
      match dict_get d field with
      | None => KeyError field
      | Some v =>
          match str_of_value v with
          | Raise e => Found (Raise e)
          | Ok t => prepend (String.append lit t) (fill d rest closing)
          end
      end
  end.

(** The concatenation of a list of texts. *)
Fixpoint join (parts : list string) : string :=
  match parts with
  | [] => EmptyString
  | p :: ps => String.append p (join ps)
  end.

(** Every character of [s] is in the class [p]. *)
Fixpoint all_chars (p : ascii -> bool) (s : string) : bool :=
  match s with
  | EmptyString => true
  | String c s' => p c && all_chars p s'
  end.

(** The class [[0=9]] of the duration pattern. *)
Definition hour_char (c : ascii) : bool :=
  Ascii.eqb c "0" || Ascii.eqb c "=" || Ascii.eqb c "9".

(** The texts of the records of a list, for records whose [__repr__]
    returns. *)
Definition texts (l : list FFStream.t) : list string :=
  map (fun r => match FFStream.__repr__ r with
                | Found (Ok t) => t
                | _ => EmptyString
                end) l.

Definition bracketed (l : list FFStream.t) : string :=
  String.append "[" (String.append (FFProbe.join_comma (texts l)) "]").

Definition has_text (r : FFStream.t) : Prop :=
  exists t, FFStream.__repr__ r = Found (Ok t).


(** * Properties *)

(** ** The instance dictionary *)

Lemma dict_get_set (d : dict) (k k' : string) (v : value) :
  dict_get (dict_set d k v) k' = if String.eqb k k' then Some v else dict_get d k'.
Proof.
  induction d as [|[k0 v0] d IH]; simpl.
  - reflexivity.
  - destruct (String.eqb_spec k0 k) as [->|Hne]; simpl.
    + destruct (String.eqb_spec k k'); reflexivity.
    + destruct (String.eqb_spec k0 k') as [->|Hne'].
      * destruct (String.eqb_spec k k'); [congruence|reflexivity].
      * exact IH.
Qed.

Lemma dict_get_set_same (d : dict) (k : string) (v : value) :
  dict_get (dict_set d k v) k = Some v.
Proof. rewrite dict_get_set, String.eqb_refl. reflexivity. Qed.

Lemma dict_get_set_other (d : dict) (k k' : string) (v : value) :
  k <> k' -> dict_get (dict_set d k v) k' = dict_get d k'.
Proof.
  intros Hne. rewrite dict_get_set.
  destruct (String.eqb_spec k k'); [contradiction|reflexivity].
Qed.

Lemma text_valued_nil : text_valued [].
Proof. intros k v H. discriminate H. Qed.

Lemma text_valued_set_text (d : dict) (k s : string) :
  text_valued d -> text_valued (dict_set d k (VStr s)).
Proof.
  intros Hd k' v Hget Hk'. rewrite dict_get_set in Hget.
  destruct (String.eqb k k').
  - injection Hget as <-. eauto.
  - eauto.
Qed.

Lemma text_valued_set_framerate (d : dict) (v : value) :
  text_valued d -> text_valued (dict_set d "framerate" v).
Proof.
  intros Hd k' v' Hget Hk'. rewrite dict_get_set_other in Hget by congruence.
  eauto.
Qed.

(** ** FFStream construction *)

Lemma bind_Ok {A B : Type} (c : result A) (k : A -> result B) (b : B) :
  bind c k = Ok b -> exists a, c = Ok a /\ k a = Ok b.
Proof. destruct c; simpl; intros H; [eauto|discriminate]. Qed.

Lemma update_line_Ok (d d' : dict) (line : string) :
  FFStream.update_line d line = Ok d' ->
  exists key val rest fr,
    Py.split "=" (Py.strip line) = key :: val :: rest
    /\ FFStream.derive_framerate (dict_set d key (VStr val)) = Ok fr
    /\ d' = dict_set (dict_set d key (VStr val)) "framerate" fr.
Proof.
  unfold FFStream.update_line.
  destruct (Py.split "=" (Py.strip line)) as [|key [|val rest]];
    try discriminate.
  intros H. apply bind_Ok in H as (fr & Hfr & Hd').
  injection Hd' as <-. exists key, val, rest, fr. auto.
Qed.

Lemma update_line_text_valued (d d' : dict) (line : string) :
  text_valued d -> FFStream.update_line d line = Ok d' -> text_valued d'.
Proof.
  intros Hd H. apply update_line_Ok in H as (key & val & rest & fr & _ & _ & ->).
  apply text_valued_set_framerate, text_valued_set_text, Hd.
Qed.

Lemma init_loop_text_valued (data_lines : list string) :
  forall d d', text_valued d -> FFStream.init_loop d data_lines = Ok d' ->
               text_valued d'.
Proof.
  induction data_lines as [|line rest IH]; simpl; intros d d' Hd H.
  - injection H as <-. exact Hd.
  - apply bind_Ok in H as (d1 & H1 & H2).
    eapply IH; [|exact H2]. eapply update_line_text_valued; eauto.
Qed.

Lemma init_text_valued (data_lines : list string) (self : FFStream.t) :
  FFStream.__init__ data_lines = Ok self -> text_valued self.
Proof. apply init_loop_text_valued, text_valued_nil. Qed.

(** ** Typed accessors *)

(** C7, evaluated on the code: on a constructed record with no
    [bit_rate] entry the call [bit_rate()] raises [FFProbeError]; with a
    [bit_rate] entry, whatever its text, the entry hides the method in
    the instance dictionary and the call raises [TypeError], although
    the function of the class gives the integer value of the text, or
    [FFProbeError] when the text does not convert. *)
Theorem C7_bit_rate_shadowed (data_lines : list string) (self : FFStream.t) :
  FFStream.__init__ data_lines = Ok self ->
  (dict_get self "bit_rate" = None ->
   FFStream.call_bit_rate self = Raise (FFProbeError "None integer bit_rate"))
  /\ (forall v, dict_get self "bit_rate" = Some v ->
      FFStream.call_bit_rate self = Raise TypeError
      /\ exists s, v = VStr s
           /\ FFStream.bit_rate self =
              match Py.int s with
              | Some z => Ok z
              | None => Raise (FFProbeError "None integer bit_rate")
              end).
Proof.
  intros Hinit. unfold FFStream.call_bit_rate, invoke. split.
  - intros Hg. rewrite Hg. unfold FFStream.bit_rate, get_default.
    rewrite Hg. reflexivity.
  - intros v Hv. rewrite Hv. split; [reflexivity|].
    destruct (init_text_valued _ _ Hinit _ _ Hv) as [s ->]; [discriminate|].
    exists s. split; [reflexivity|].
    unfold FFStream.bit_rate, get_default. rewrite Hv. simpl.
    destruct (Py.int s); reflexivity.
Qed.

Lemma C7_bit_rate_shadowed_witness :
  FFStream.call_bit_rate [("bit_rate", VStr "128000"); ("framerate", VNone)]
  = Raise TypeError
  /\ FFStream.bit_rate [("bit_rate", VStr "128000"); ("framerate", VNone)]
     = Ok 128000%Z
  /\ FFStream.call_bit_rate [("bit_rate", VStr "n/a"); ("framerate", VNone)]
     = Raise TypeError
  /\ FFStream.call_bit_rate [("codec_type", VStr "audio"); ("framerate", VNone)]
     = Raise (FFProbeError "None integer bit_rate").
Proof.
  split; [|split; [|split]].
  - destruct (C7_bit_rate_shadowed ["bit_rate=128000"] _ eq_refl) as (_ & H).
    destruct (H _ eq_refl) as (Hc & _). exact Hc.
  - destruct (C7_bit_rate_shadowed ["bit_rate=128000"] _ eq_refl) as (_ & H).
    destruct (H _ eq_refl) as (_ & s & Hs & Hb).
    injection Hs as <-. exact Hb.
  - destruct (C7_bit_rate_shadowed ["bit_rate=n/a"] _ eq_refl) as (_ & H).
    destruct (H _ eq_refl) as (Hc & _). exact Hc.
  - destruct (C7_bit_rate_shadowed ["codec_type=audio"] _ eq_refl) as (H & _).
    exact (H eq_refl).
Defined.

Lemma video_or_audio_unshadowed (self : FFStream.t) :
  dict_get self "is_video" = None -> dict_get self "is_audio" = None ->
  FFStream.video_or_audio self
  = Ok (FFStream.is_video self || FFStream.is_audio self).
Proof.
  intros Hv Ha.
  unfold FFStream.video_or_audio, FFStream.call_is_video,
    FFStream.call_is_audio, invoke.
  rewrite Hv, Ha. cbn [bind]. destruct (FFStream.is_video self); reflexivity.
Qed.

(** C10, evaluated on the code: on a record with no entry named like
    the methods involved ([frames], resp. [duration_seconds], and
    [is_video], [is_audio]), a video or audio record without [nb_frames]
    (resp. [duration]) makes [frames()] (resp. [duration_seconds()])
    raise [FFProbeError], and the zero default is returned only for the
    other kinds.  An entry named [frames] (resp. [duration_seconds])
    hides the method, and the call raises [TypeError] instead; so does
    an entry named [is_video]. *)
Theorem C10_frames_duration_shadowed (self : FFStream.t) :
  (dict_get self "is_video" = None -> dict_get self "is_audio" = None ->
   (dict_get self "frames" = None ->
    (FFStream.is_video self || FFStream.is_audio self = true ->
     dict_get self "nb_frames" = None ->
     FFStream.call_frames self
     = Raise (FFProbeError "None integer frame count"))
    /\ (FFStream.is_video self || FFStream.is_audio self = false ->
        FFStream.call_frames self = Ok 0%Z))
   /\ (dict_get self "duration_seconds" = None ->
       (FFStream.is_video self || FFStream.is_audio self = true ->
        dict_get self "duration" = None ->
        FFStream.call_duration_seconds self
        = Raise (FFProbeError "None numeric duration"))
       /\ (FFStream.is_video self || FFStream.is_audio self = false ->
           FFStream.call_duration_seconds self = Ok (Flt.Finite 0 0))))
  /\ (dict_get self "frames" <> None ->
      FFStream.call_frames self = Raise TypeError)
  /\ (dict_get self "duration_seconds" <> None ->
      FFStream.call_duration_seconds self = Raise TypeError)
  /\ (dict_get self "is_video" <> None ->
      (dict_get self "frames" = None ->
       FFStream.call_frames self = Raise TypeError)
      /\ (dict_get self "duration_seconds" = None ->
          FFStream.call_duration_seconds self = Raise TypeError)).
Proof.
  unfold FFStream.call_frames, FFStream.call_duration_seconds, invoke.
  split; [|split; [|split]].
  - intros Hv Ha. split; intros ->;
      unfold FFStream.frames, FFStream.duration_seconds, get_default;
      rewrite (video_or_audio_unshadowed self Hv Ha); cbn [bind];
      (split; [intros -> ->; reflexivity|intros ->; reflexivity]).
  - intros H. destruct (dict_get self "frames"); [reflexivity|contradiction].
  - intros H. destruct (dict_get self "duration_seconds");
      [reflexivity|contradiction].
  - intros H.
    assert (Hva : FFStream.video_or_audio self = Raise TypeError).
    { unfold FFStream.video_or_audio, FFStream.call_is_video, invoke.
      destruct (dict_get self "is_video"); [reflexivity|contradiction]. }
    split; intros ->; unfold FFStream.frames, FFStream.duration_seconds;
      rewrite Hva; reflexivity.
Qed.

Lemma C10_frames_duration_shadowed_witness :
  FFStream.call_frames [("codec_type", VStr "video"); ("framerate", VNone)]
  = Raise (FFProbeError "None integer frame count")
  /\ FFStream.call_duration_seconds
       [("codec_type", VStr "subtitle"); ("framerate", VNone)]
     = Ok (Flt.Finite 0 0)
  /\ FFStream.call_frames
       [("codec_type", VStr "video"); ("framerate", VNone);
        ("frames", VStr "1")]
     = Raise TypeError.
Proof.
  split; [|split].
  - destruct (C10_frames_duration_shadowed
                [("codec_type", VStr "video"); ("framerate", VNone)])
      as (H & _).
    destruct (H eq_refl eq_refl) as (Hf & _).
    destruct (Hf eq_refl) as (Hf1 & _). exact (Hf1 eq_refl eq_refl).
  - destruct (C10_frames_duration_shadowed
                [("codec_type", VStr "subtitle"); ("framerate", VNone)])
      as (H & _).
    destruct (H eq_refl eq_refl) as (_ & Hd).
    destruct (Hd eq_refl) as (_ & Hd0). exact (Hd0 eq_refl).
  - destruct (C10_frames_duration_shadowed
                [("codec_type", VStr "video"); ("framerate", VNone);
                 ("frames", VStr "1")]) as (_ & H & _).
    apply H. discriminate.
Defined.

(** ** Classification *)

Lemma codec_type_is_spec (self : FFStream.t) (kind : string) :
  FFStream.codec_type_is self kind = true
  <-> dict_get self "codec_type" = Some (VStr kind).
Proof.
  unfold FFStream.codec_type_is, get_default.
  destruct (dict_get self "codec_type") as [[s|z|]|]; simpl;
    try (split; [discriminate|intros H; discriminate H || congruence]).
  - destruct (String.eqb_spec s kind) as [->|Hne]; split; congruence.
Qed.

Lemma codec_type_is_unique (self : FFStream.t) (k1 k2 : string) :
  FFStream.codec_type_is self k1 = true ->
  FFStream.codec_type_is self k2 = true -> k1 = k2.
Proof. rewrite !codec_type_is_spec. congruence. Qed.

Lemma is_audio_not_video (s : FFStream.t) :
  FFStream.is_audio s = true -> FFStream.is_video s = false.
Proof.
  intros Ha. destruct (FFStream.is_video s) eqn:Hv; [|reflexivity].
  discriminate (codec_type_is_unique s _ _ Ha Hv).
Qed.

Lemma is_audio_not_subtitle (s : FFStream.t) :
  FFStream.is_audio s = true -> FFStream.is_subtitle s = false.
Proof.
  intros Ha. destruct (FFStream.is_subtitle s) eqn:Hv; [|reflexivity].
  discriminate (codec_type_is_unique s _ _ Ha Hv).
Qed.

Lemma is_audio_not_attachment (s : FFStream.t) :
  FFStream.is_audio s = true -> FFStream.is_attachment s = false.
Proof.
  intros Ha. destruct (FFStream.is_attachment s) eqn:Hv; [|reflexivity].
  discriminate (codec_type_is_unique s _ _ Ha Hv).
Qed.

Lemma is_video_not_subtitle (s : FFStream.t) :
  FFStream.is_video s = true -> FFStream.is_subtitle s = false.
Proof.
  intros Ha. destruct (FFStream.is_subtitle s) eqn:Hv; [|reflexivity].
  discriminate (codec_type_is_unique s _ _ Ha Hv).
Qed.

Lemma is_video_not_attachment (s : FFStream.t) :
  FFStream.is_video s = true -> FFStream.is_attachment s = false.
Proof.
  intros Ha. destruct (FFStream.is_attachment s) eqn:Hv; [|reflexivity].
  discriminate (codec_type_is_unique s _ _ Ha Hv).
Qed.

Lemma is_subtitle_not_attachment (s : FFStream.t) :
  FFStream.is_subtitle s = true -> FFStream.is_attachment s = false.
Proof.
  intros Ha. destruct (FFStream.is_attachment s) eqn:Hv; [|reflexivity].
  discriminate (codec_type_is_unique s _ _ Ha Hv).
Qed.

(** A test of the classification loop that returns is the function of
    the class. *)
Lemma invoke_Ok {A : Type} (self : dict) (name : string)
  (body : dict -> result A) (a : A) :
  invoke self name body = Ok a -> body self = Ok a.
Proof. unfold invoke. destruct (dict_get self name); [discriminate|auto]. Qed.

Lemma classify_one_Ok (k k' : FFProbe.kinds) (s : FFStream.t) :
  FFProbe.classify_one k s = Ok k' ->
  k' = FFProbe.Kinds
         (FFProbe.k_video k ++ filter FFStream.is_video [s])
         (FFProbe.k_audio k ++ filter FFStream.is_audio [s])
         (FFProbe.k_subtitle k ++ filter FFStream.is_subtitle [s])
         (FFProbe.k_attachment k ++ filter FFStream.is_attachment [s]).
Proof.
  unfold FFProbe.classify_one. cbn [filter]. intros H.
  apply bind_Ok in H as (a & Ha & H). apply invoke_Ok in Ha.
  injection Ha as <-.
  destruct (FFStream.is_audio s) eqn:Ha.
  { injection H as <-.
    rewrite (is_audio_not_video s Ha), (is_audio_not_subtitle s Ha),
      (is_audio_not_attachment s Ha), !app_nil_r. reflexivity. }
  apply bind_Ok in H as (v & Hv & H). apply invoke_Ok in Hv.
  injection Hv as <-.
  destruct (FFStream.is_video s) eqn:Hv.
  { injection H as <-.
    rewrite (is_video_not_subtitle s Hv), (is_video_not_attachment s Hv),
      !app_nil_r. reflexivity. }
  apply bind_Ok in H as (u & Hu & H). apply invoke_Ok in Hu.
  injection Hu as <-.
  destruct (FFStream.is_subtitle s) eqn:Hs.
  { injection H as <-.
    rewrite (is_subtitle_not_attachment s Hs), !app_nil_r. reflexivity. }
  apply bind_Ok in H as (t & Ht & H). apply invoke_Ok in Ht.
  injection Ht as <-.
  destruct (FFStream.is_attachment s) eqn:Hatt; injection H as <-;
    rewrite ?app_nil_r; destruct k; reflexivity.
Qed.

Lemma classify_loop_Ok (l : list FFStream.t) : forall k k',
  FFProbe.classify_loop k l = Ok k' ->
  k' = FFProbe.Kinds
         (FFProbe.k_video k ++ filter FFStream.is_video l)
         (FFProbe.k_audio k ++ filter FFStream.is_audio l)
         (FFProbe.k_subtitle k ++ filter FFStream.is_subtitle l)
         (FFProbe.k_attachment k ++ filter FFStream.is_attachment l).
Proof.
  induction l as [|s l IH]; intros k k' H.
  - injection H as <-. destruct k. simpl. rewrite !app_nil_r. reflexivity.
  - cbn [FFProbe.classify_loop] in H. apply bind_Ok in H as (k1 & H1 & H).
    apply IH in H. apply classify_one_Ok in H1. subst k1.
    cbn [FFProbe.k_video FFProbe.k_audio FFProbe.k_subtitle
           FFProbe.k_attachment] in H.
    rewrite H, <- !app_assoc.
    change (fun x => ?f x) with f.
    replace (filter FFStream.is_video (s :: l))
      with (filter FFStream.is_video [s] ++ filter FFStream.is_video l)
      by (cbn [filter]; destruct (FFStream.is_video s); reflexivity).
    replace (filter FFStream.is_audio (s :: l))
      with (filter FFStream.is_audio [s] ++ filter FFStream.is_audio l)
      by (cbn [filter]; destruct (FFStream.is_audio s); reflexivity).
    replace (filter FFStream.is_subtitle (s :: l))
      with (filter FFStream.is_subtitle [s] ++ filter FFStream.is_subtitle l)
      by (cbn [filter]; destruct (FFStream.is_subtitle s); reflexivity).
    replace (filter FFStream.is_attachment (s :: l))
      with (filter FFStream.is_attachment [s]
            ++ filter FFStream.is_attachment l)
      by (cbn [filter]; destruct (FFStream.is_attachment s); reflexivity).
    reflexivity.
Qed.

Lemma classify_Ok (l : list FFStream.t) (k : FFProbe.kinds) :
  FFProbe.classify l = Ok k ->
  k = FFProbe.Kinds (filter FFStream.is_video l) (filter FFStream.is_audio l)
        (filter FFStream.is_subtitle l) (filter FFStream.is_attachment l).
Proof. intros H. apply classify_loop_Ok in H. exact H. Qed.

Lemma init_Ok (stdout stderr mkverr : list string) (p : FFProbe.t) :
  FFProbe.__init__ stdout stderr mkverr = Ok p ->
  exists st1 st2 cs,
    FFProbe.scan FFProbe.initial stdout = Ok st1
    /\ FFProbe.scan st1 stderr = Ok st2
    /\ FFProbe.container_scan [] mkverr = Ok cs
    /\ p = FFProbe.Probe (FFProbe.parsed st2)
             (filter FFStream.is_video (FFProbe.parsed st2))
             (filter FFStream.is_audio (FFProbe.parsed st2))
             (filter FFStream.is_subtitle (FFProbe.parsed st2))
             (filter FFStream.is_attachment (FFProbe.parsed st2))
             cs.
Proof.
  unfold FFProbe.__init__. intros H.
  apply bind_Ok in H as (st1 & H1 & H).
  apply bind_Ok in H as (st2 & H2 & H).
  apply bind_Ok in H as (k & Hk & H).
  apply bind_Ok in H as (cs & H3 & H).
  injection H as <-. apply classify_Ok in Hk. subst k.
  exists st1, st2, cs. auto.
Qed.

Lemma recognized_spec (r : FFStream.t) :
  recognized r
  <-> FFStream.is_video r = true \/ FFStream.is_audio r = true
      \/ FFStream.is_subtitle r = true \/ FFStream.is_attachment r = true.
Proof.
  unfold recognized, FFStream.is_video, FFStream.is_audio,
    FFStream.is_subtitle, FFStream.is_attachment.
  rewrite !codec_type_is_spec. split.
  - intros (kind & Hin & Hget). simpl in Hin.
    destruct Hin as [<-|[<-|[<-|[<-|[]]]]]; auto.
  - intros [H|[H|[H|H]]]; eexists; (split; [|exact H]); simpl; auto.
Qed.

(** C9: every record of a result is in the full list; it is in exactly
    one of the four partition lists if and only if its raw [codec_type]
    is one of video, audio, subtitle, attachment; with any other or no
    [codec_type] it is in the full list and in none of the four; the
    partition lists hold records of the full list only. *)
Theorem C9_partition (stdout stderr mkverr : list string) (p : FFProbe.t) :
  FFProbe.__init__ stdout stderr mkverr = Ok p ->
  (forall r, In r (FFProbe.streams p) ->
     (in_exactly_one r p <-> recognized r)
     /\ (~ recognized r -> in_no_partition r p))
  /\ (forall r, In r (FFProbe.video p) \/ In r (FFProbe.audio p)
                \/ In r (FFProbe.subtitle p) \/ In r (FFProbe.attachment p) ->
                In r (FFProbe.streams p)).
Proof.
  intros H. apply init_Ok in H as (st1 & st2 & cs & _ & _ & _ & ->).
  unfold in_exactly_one, in_no_partition. simpl.
  split.
  - intros r Hr. rewrite recognized_spec, !filter_In.
    assert (Hx : forall a b, FFStream.codec_type_is r a = true ->
                             FFStream.codec_type_is r b = true -> a = b)
      by apply codec_type_is_unique.
    unfold FFStream.is_video, FFStream.is_audio, FFStream.is_subtitle,
      FFStream.is_attachment.
    assert (Hva := Hx "video" "audio"). assert (Hvs := Hx "video" "subtitle").
    assert (Hvt := Hx "video" "attachment").
    assert (Has := Hx "audio" "subtitle").
    assert (Hat := Hx "audio" "attachment").
    assert (Hst := Hx "subtitle" "attachment").
    clear Hx.
    destruct (FFStream.codec_type_is r "video");
      destruct (FFStream.codec_type_is r "audio");
      destruct (FFStream.codec_type_is r "subtitle");
      destruct (FFStream.codec_type_is r "attachment");
      try (discriminate (Hva eq_refl eq_refl));
      try (discriminate (Hvs eq_refl eq_refl));
      try (discriminate (Hvt eq_refl eq_refl));
      try (discriminate (Has eq_refl eq_refl));
      try (discriminate (Hat eq_refl eq_refl));
      try (discriminate (Hst eq_refl eq_refl));
      clear Hva Hvs Hvt Has Hat Hst;
      intuition congruence.
  - intros r. rewrite !filter_In. tauto.
Qed.

Lemma C9_partition_witness :
  let video := [("codec_type", VStr "video"); ("framerate", VNone)] in
  let data := [("codec_type", VStr "data"); ("framerate", VNone)] in
  exists p,
    FFProbe.__init__
      ["[STREAM]"; "codec_type=video"; "[/STREAM]";
       "[STREAM]"; "codec_type=data"; "[/STREAM]"] [] [] = Ok p
    /\ in_exactly_one video p /\ in_no_partition data p.
Proof.
  intros video data. eexists. split; [reflexivity|].
  match goal with
  | |- in_exactly_one _ ?p /\ _ =>
      destruct (C9_partition
                  ["[STREAM]"; "codec_type=video"; "[/STREAM]";
                   "[STREAM]"; "codec_type=data"; "[/STREAM]"] [] [] p eq_refl)
        as (H & _)
  end.
  split.
  - apply (H video); [simpl; auto|].
    exists "video". split; [simpl; auto|reflexivity].
  - apply (H data); [simpl; auto|].
    intros (kind & Hin & Hget). simpl in Hin.
    destruct Hin as [<-|[<-|[<-|[<-|[]]]]]; discriminate Hget.
Defined.

(** ** The block loops *)

Lemma scan_app (l1 l2 : list string) : forall st,
  FFProbe.scan st (l1 ++ l2)
  = (st' <- FFProbe.scan st l1 ;; FFProbe.scan st' l2).
Proof.
  induction l1 as [|l l1 IH]; intros st; simpl; [reflexivity|].
  destruct (FFProbe.step st l); simpl; [apply IH|reflexivity].
Qed.

Lemma scan_no_close (lines : list string) : forall st,
  no_close lines ->
  exists b buf, FFProbe.scan st lines = Ok (FFProbe.Parser b buf (FFProbe.parsed st)).
Proof.
  induction lines as [|l lines IH]; intros st Hnc; simpl.
  - destruct st as [b buf ps]. exists b, buf. reflexivity.
  - assert (Hl : Py.contains "[/STREAM]" l = false) by (apply Hnc; simpl; auto).
    assert (Hnc' : no_close lines) by (intros x Hx; apply Hnc; simpl; auto).
    unfold FFProbe.step. rewrite Hl.
    destruct (Py.contains "[STREAM]" l); simpl.
    + apply (IH (FFProbe.Parser true [] (FFProbe.parsed st)) Hnc').
    + destruct (FFProbe.stream st); simpl.
      * apply (IH (FFProbe.Parser true (FFProbe.data_lines st ++ [l])
                     (FFProbe.parsed st)) Hnc').
      * apply (IH st Hnc').
Qed.

Lemma scan_body (body : list string) : forall buf ps,
  no_marker body ->
  FFProbe.scan (FFProbe.Parser true buf ps) body
  = Ok (FFProbe.Parser true (buf ++ body) ps).
Proof.
  induction body as [|l body IH]; intros buf ps Hnm; simpl.
  - rewrite app_nil_r. reflexivity.
  - destruct (Hnm l) as [Ho Hc]; [simpl; auto|].
    unfold FFProbe.step. rewrite Ho, Hc. simpl.
    rewrite IH by (intros x Hx; apply Hnm; simpl; auto).
    rewrite <- app_assoc. reflexivity.
Qed.

(** A block enclosed by its two markers hands exactly its body lines to
    [FFStream], whatever the parser went through before. *)
Lemma scan_block (body post : list string) (st : FFProbe.parser) :
  no_marker body ->
  FFProbe.scan st ("[STREAM]" :: body ++ "[/STREAM]" :: post)
  = (s <- FFStream.__init__ body ;;
     FFProbe.scan (FFProbe.Parser false body (FFProbe.parsed st ++ [s])) post).
Proof.
  intros Hnm.
  change (FFProbe.scan st ("[STREAM]" :: body ++ "[/STREAM]" :: post))
    with (FFProbe.scan (FFProbe.Parser true [] (FFProbe.parsed st))
            (body ++ "[/STREAM]" :: post)).
  rewrite scan_app, scan_body by exact Hnm. simpl.
  unfold FFProbe.step.
  change (Py.contains "[STREAM]" "[/STREAM]") with false.
  change (Py.contains "[/STREAM]" "[/STREAM]") with true. simpl.
  destruct (FFStream.__init__ body); reflexivity.
Qed.

(** C4, evaluated on the code: with the same [stderr] lines, the
    records attributed to [stderr] differ between a [stdout] that ends
    inside a block and an empty [stdout]; the flag and the buffer of the
    first loop are carried into the second. *)
Theorem C4_stderr_blocks_depend_on_stdout :
  stderr_blocks ["[STREAM]"; "codec_type=video"] ["index=0"; "[/STREAM]"]
  = Ok [[("codec_type", VStr "video"); ("framerate", VNone);
         ("index", VStr "0")]]
  /\ stderr_blocks [] ["index=0"; "[/STREAM]"] = Ok [].
Proof. split; reflexivity. Qed.

(** C5, as stated, fails: a [stdout] that ends inside a block is not
    dropped, its buffer is emitted by a closing marker of [stderr]; and
    where the buffer is dropped (a [stderr] that ends inside a block) the
    outcome is that of the empty input, with no diagnostic in it. *)
Lemma C5_counterexample :
  exists p,
    FFProbe.__init__ ["[STREAM]"; "codec_type=video"] ["[/STREAM]"] [] = Ok p
    /\ FFProbe.streams p = [[("codec_type", VStr "video"); ("framerate", VNone)]]
    /\ List.length (FFProbe.streams p) <> 0
    /\ FFProbe.__init__ [] ["[STREAM]"; "codec_type=video"] []
       = FFProbe.__init__ [] [] [].
Proof.
  eexists. split; [reflexivity|]. split; [reflexivity|].
  split; [discriminate|reflexivity].
Qed.

(** C5, amended: when the input as a whole ends inside a block (an
    opening marker in [stderr], or in [stdout] with no closing marker in
    [stderr], and no closing marker after it), the analysis gives
    exactly the outcome it gives without the unterminated block: no
    record comes from it, its buffer is dropped, nothing is reported
    about it, and nothing is raised because of it. *)
Theorem C5_unterminated_block_dropped
  (stdout stderr tail mkverr : list string) :
  no_close tail ->
  FFProbe.__init__ stdout (stderr ++ "[STREAM]" :: tail) mkverr
  = FFProbe.__init__ stdout stderr mkverr
  /\ (no_close stderr ->
      FFProbe.__init__ (stdout ++ "[STREAM]" :: tail) stderr mkverr
      = FFProbe.__init__ stdout [] mkverr).
Proof.
  intros Hnc.
  assert (Hnc' : no_close ("[STREAM]" :: tail)).
  { intros l [<-|Hl]; [reflexivity|apply Hnc, Hl]. }
  unfold FFProbe.__init__. split.
  - destruct (FFProbe.scan FFProbe.initial stdout) as [st1|e]; simpl;
      [|reflexivity].
    rewrite scan_app.
    destruct (FFProbe.scan st1 stderr) as [st2|e]; simpl; [|reflexivity].
    destruct (scan_no_close _ st2 Hnc') as (b & buf & Hs).
    simpl in Hs. rewrite Hs. reflexivity.
  - intros Hne. rewrite scan_app.
    destruct (FFProbe.scan FFProbe.initial stdout) as [st1|e]; simpl;
      [|reflexivity].
    destruct (scan_no_close _ st1 Hnc') as (b & buf & Hs).
    simpl in Hs. rewrite Hs. simpl.
    destruct (scan_no_close _ (FFProbe.Parser b buf (FFProbe.parsed st1)) Hne)
      as (b' & buf' & Hs').
    rewrite Hs'. reflexivity.
Qed.

Lemma C5_unterminated_block_dropped_witness :
  FFProbe.__init__ ["[STREAM]"; "codec_type=audio"; "[/STREAM]"]
    ([] ++ "[STREAM]" :: ["codec_type=video"; "index=1"]) []
  = FFProbe.__init__ ["[STREAM]"; "codec_type=audio"; "[/STREAM]"] [] []
  /\ FFProbe.__init__
       (["[STREAM]"; "codec_type=audio"; "[/STREAM]"]
        ++ "[STREAM]" :: ["codec_type=video"; "index=1"]) [] []
     = FFProbe.__init__ ["[STREAM]"; "codec_type=audio"; "[/STREAM]"] [] [].
Proof.
  assert (Hnc : no_close ["codec_type=video"; "index=1"]).
  { intros l [<-|[<-|[]]]; reflexivity. }
  destruct (C5_unterminated_block_dropped
              ["[STREAM]"; "codec_type=audio"; "[/STREAM]"] []
              ["codec_type=video"; "index=1"] [] Hnc) as (H1 & H2).
  split; [exact H1|apply H2].
  intros l [].
Defined.

(** ** Lines without an equals sign *)

Lemma contains_eq_cons (c : ascii) (s : string) :
  Py.contains "=" (String c s) = Ascii.eqb c "=" || Py.contains "=" s.
Proof.
  cbn [Py.contains prefix]. destruct (ascii_dec "=" c) as [<-|Hne].
  - destruct s; reflexivity.
  - destruct (Ascii.eqb_spec c "="); [congruence|reflexivity].
Qed.

Lemma contains_eq_cons_false (c : ascii) (s : string) :
  Py.contains "=" (String c s) = false ->
  Ascii.eqb c "=" = false /\ Py.contains "=" s = false.
Proof. rewrite contains_eq_cons. apply orb_false_elim. Qed.

Lemma split_no_eq (s : string) :
  Py.contains "=" s = false -> Py.split "=" s = [s].
Proof.
  induction s as [|c s IH]; [reflexivity|].
  intros H. apply contains_eq_cons_false in H as [Hc Hs].
  simpl. rewrite Hc, (IH Hs). reflexivity.
Qed.

Lemma lstrip_no_eq (s : string) :
  Py.contains "=" s = false -> Py.contains "=" (Py.lstrip s) = false.
Proof.
  induction s as [|c s IH]; [reflexivity|].
  intros H. cbn [Py.lstrip]. destruct (Py.isspace c); [|exact H].
  apply IH. apply contains_eq_cons_false in H. tauto.
Qed.

Lemma rstrip_no_eq (s : string) :
  Py.contains "=" s = false -> Py.contains "=" (Py.rstrip s) = false.
Proof.
  induction s as [|c s IH]; [reflexivity|].
  intros H. apply contains_eq_cons_false in H as [Hc Hs].
  specialize (IH Hs). cbn [Py.rstrip].
  destruct (Py.rstrip s) as [|c' r].
  - destruct (Py.isspace c); [reflexivity|].
    rewrite contains_eq_cons, Hc. reflexivity.
  - rewrite contains_eq_cons, Hc, IH. reflexivity.
Qed.

Lemma update_line_no_eq (d : dict) (line : string) :
  Py.contains "=" line = false -> FFStream.update_line d line = Raise ValueError.
Proof.
  intros H. unfold FFStream.update_line, Py.strip.
  rewrite split_no_eq by (apply rstrip_no_eq, lstrip_no_eq, H). reflexivity.
Qed.

Lemma init_loop_no_eq (data_lines : list string) (line : string) :
  In line data_lines -> Py.contains "=" line = false ->
  forall d, exists e, FFStream.init_loop d data_lines = Raise e.
Proof.
  induction data_lines as [|l rest IH]; intros Hin Hne d; [destruct Hin|].
  simpl. destruct Hin as [->|Hin].
  - rewrite update_line_no_eq by exact Hne. simpl. eauto.
  - destruct (FFStream.update_line d l) as [d'|e]; simpl; eauto.
Qed.

(** ** The container scan *)

Lemma isdigit_not_space (c : ascii) : Py.isdigit c = true -> Py.isspace c = false.
Proof.
  destruct c as [[] [] [] [] [] [] [] []]; intros H;
    solve [reflexivity | discriminate H].
Qed.

Lemma isdigit_not_eq (c : ascii) : Py.isdigit c = true -> Ascii.eqb c "=" = false.
Proof.
  destruct c as [[] [] [] [] [] [] [] []]; intros H;
    solve [reflexivity | discriminate H].
Qed.

Lemma rstrip_cons (c : ascii) (r : string) :
  Py.isspace c = false -> Py.rstrip r = r -> Py.rstrip (String c r) = String c r.
Proof.
  intros Hc Hr. cbn [Py.rstrip]. rewrite Hr, Hc. destruct r; reflexivity.
Qed.

Lemma rstrip_digits (m : string) :
  Py.rstrip (Re.sub_non_digits m) = Re.sub_non_digits m.
Proof.
  induction m as [|c m IH]; [reflexivity|].
  cbn [Re.sub_non_digits]. destruct (Py.isdigit c) eqn:Hc; [|exact IH].
  apply rstrip_cons; [apply isdigit_not_space, Hc|exact IH].
Qed.

Lemma split_digits (m : string) :
  Py.split "=" (Re.sub_non_digits m) = [Re.sub_non_digits m].
Proof.
  induction m as [|c m IH]; [reflexivity|].
  cbn [Re.sub_non_digits]. destruct (Py.isdigit c) eqn:Hc; [|exact IH].
  cbn [Py.split]. rewrite (isdigit_not_eq c Hc), IH. reflexivity.
Qed.

Lemma container_init_digits (m : string) :
  FFContainer.__init__ [String.append "container_bitrate=" (Re.sub_non_digits m)]
  = Ok [("container_bitrate", VStr (Re.sub_non_digits m))].
Proof.
  unfold FFContainer.__init__, FFContainer.init_loop, FFContainer.update_line.
  assert (Hs : Py.strip (String.append "container_bitrate=" (Re.sub_non_digits m))
               = String.append "container_bitrate=" (Re.sub_non_digits m)).
  { unfold Py.strip. cbn [String.append Py.lstrip].
    change (Py.isspace "c") with false. cbv iota.
    repeat (apply rstrip_cons; [reflexivity|]). apply rstrip_digits. }
  rewrite Hs. cbn [String.append Py.split].
  repeat match goal with
         | |- context [Ascii.eqb ?a ?b] =>
             let v := eval vm_compute in (Ascii.eqb a b) in
             change (Ascii.eqb a b) with v; cbv iota
         end.
  rewrite split_digits. reflexivity.
Qed.

Lemma container_step_announced (acc : list FFContainer.t) (line : string) :
  announces line = true -> has_bit_rate line = true ->
  FFProbe.container_step acc line = Ok (acc ++ [recovered line]).
Proof.
  unfold announces, has_bit_rate, recovered, FFProbe.container_step,
    Re.search_group.
  destruct (Re.search FFProbe.stream_re line); [intros _|discriminate].
  destruct (Re.search FFProbe.bit_re line) as [[i n]|]; [intros _|discriminate].
  rewrite container_init_digits. reflexivity.
Qed.

Lemma container_step_silent (acc : list FFContainer.t) (line : string) :
  announces line = false -> FFProbe.container_step acc line = Ok acc.
Proof.
  unfold announces, FFProbe.container_step.
  destruct (Re.search FFProbe.stream_re line); [discriminate|reflexivity].
Qed.

Lemma container_scan_total (lines : list string) : forall acc,
  (forall l, In l lines -> announces l = true -> has_bit_rate l = true) ->
  FFProbe.container_scan acc lines
  = Ok (acc ++ map recovered (filter announces lines)).
Proof.
  induction lines as [|l lines IH]; intros acc Hall; simpl.
  - rewrite app_nil_r. reflexivity.
  - destruct (announces l) eqn:Ha.
    + rewrite container_step_announced by (auto; apply Hall; simpl; auto).
      simpl. rewrite IH by (intros x Hx; apply Hall; simpl; auto).
      rewrite <- app_assoc. reflexivity.
    + rewrite container_step_silent by exact Ha. simpl.
      apply IH. intros x Hx; apply Hall; simpl; auto.
Qed.

Lemma container_scan_app (l1 l2 : list string) : forall acc,
  FFProbe.container_scan acc (l1 ++ l2)
  = (acc' <- FFProbe.container_scan acc l1 ;; FFProbe.container_scan acc' l2).
Proof.
  induction l1 as [|l l1 IH]; intros acc; simpl; [reflexivity|].
  destruct (FFProbe.container_step acc l); simpl; [apply IH|reflexivity].
Qed.

Lemma container_step_acc (acc : list FFContainer.t) (line : string) :
  FFProbe.container_step acc line
  = (cs <- FFProbe.container_step [] line ;; Ok (acc ++ cs)).
Proof.
  unfold FFProbe.container_step.
  destruct (Re.search FFProbe.stream_re line); simpl;
    [|rewrite app_nil_r; reflexivity].
  destruct (Re.search_group FFProbe.bit_re line); [|reflexivity].
  destruct (FFContainer.__init__ _); reflexivity.
Qed.

Lemma container_scan_acc (lines : list string) : forall acc,
  FFProbe.container_scan acc lines
  = (cs <- FFProbe.container_scan [] lines ;; Ok (acc ++ cs)).
Proof.
  induction lines as [|l lines IH]; intros acc; simpl.
  - rewrite app_nil_r. reflexivity.
  - rewrite (container_step_acc acc l).
    destruct (FFProbe.container_step [] l) as [cs|e]; simpl; [|reflexivity].
    rewrite (IH (acc ++ cs)), (IH cs).
    destruct (FFProbe.container_scan [] lines) as [cs'|e]; simpl;
      [|reflexivity].
    rewrite app_assoc. reflexivity.
Qed.

(** C3, as stated, fails: two diagnostic lines that match the duration
    pattern give two container records. *)
Lemma C3_counterexample :
  exists p,
    FFProbe.__init__ [] []
      ["  Duration: 00:01:02.34, start: 0.000000, bitrate: 128 kb/s";
       "  Duration: 00:01:02.34, start: 0.000000, bitrate: 256 kb/s"] = Ok p
    /\ FFProbe.container p = [[("container_bitrate", VStr "128")];
                              [("container_bitrate", VStr "256")]]
    /\ ~ (List.length (FFProbe.container p) <= 1)%nat.
Proof.
  eexists. split; [reflexivity|]. split; [reflexivity|]. simpl. lia.
Qed.

(** C3, amended: the scan appends one container record for every
    diagnostic line that matches the duration pattern, in line order,
    each built from the first bit-rate match of its own line; when no
    line matches the duration pattern the container list is empty and
    nothing is raised. *)
Theorem C3_one_container_per_match (mkverr : list string) :
  ((forall l, In l mkverr -> announces l = true -> has_bit_rate l = true) ->
   FFProbe.container_scan [] mkverr
   = Ok (map recovered (filter announces mkverr)))
  /\ ((forall l, In l mkverr -> announces l = false) ->
      FFProbe.container_scan [] mkverr = Ok [])
  /\ (forall stdout stderr p,
        FFProbe.__init__ stdout stderr mkverr = Ok p ->
        List.length (FFProbe.container p)
        = List.length (filter announces mkverr)).
Proof.
  split; [|split].
  - intros Hall. rewrite container_scan_total by exact Hall. reflexivity.
  - intros Hnone. rewrite container_scan_total.
    + replace (filter announces mkverr) with (@nil string); [reflexivity|].
      symmetry. induction mkverr as [|l ls IH]; [reflexivity|].
      simpl. rewrite (Hnone l) by (simpl; auto).
      apply IH. intros x Hx. apply Hnone. simpl; auto.
    + intros l Hl Ha. rewrite (Hnone l Hl) in Ha. discriminate Ha.
  - intros stdout stderr p H.
    apply init_Ok in H as (st1 & st2 & cs & _ & _ & Hcs & ->). simpl.
    clear st1 st2. revert cs Hcs.
    assert (G : forall lines acc cs,
               FFProbe.container_scan acc lines = Ok cs ->
               List.length cs
               = (List.length acc + List.length (filter announces lines))%nat).
    { induction lines as [|l lines IH]; intros acc cs Hcs; simpl in *.
      - injection Hcs as <-. lia.
      - apply bind_Ok in Hcs as (acc' & Hstep & Hrest).
        apply IH in Hrest. rewrite Hrest.
        unfold FFProbe.container_step in Hstep. unfold announces.
        destruct (Re.search FFProbe.stream_re l).
        + destruct (Re.search_group FFProbe.bit_re l); [|discriminate].
          apply bind_Ok in Hstep as (c & _ & Hc). injection Hc as <-.
          rewrite length_app. simpl. lia.
        + injection Hstep as <-. reflexivity. }
    intros cs Hcs. apply G in Hcs. exact Hcs.
Qed.

Lemma C3_one_container_per_match_witness :
  FFProbe.container_scan []
    ["  Duration: 00:01:02.34, start: 0.000000, bitrate: 128 kb/s";
     "    Stream #0:0: Audio: mp3, 44100 Hz, stereo, fltp, 128 kb/s";
     "  Duration: 00:01:02.34, start: 0.000000, bitrate: 256 kb/s"]
  = Ok [[("container_bitrate", VStr "128")]; [("container_bitrate", VStr "256")]]
  /\ FFProbe.container_scan []
       ["    Stream #0:0: Audio: mp3, 44100 Hz, stereo, fltp, 128 kb/s"]
     = Ok [].
Proof.
  split.
  - apply (C3_one_container_per_match
             ["  Duration: 00:01:02.34, start: 0.000000, bitrate: 128 kb/s";
              "    Stream #0:0: Audio: mp3, 44100 Hz, stereo, fltp, 128 kb/s";
              "  Duration: 00:01:02.34, start: 0.000000, bitrate: 256 kb/s"]).
    intros l [<-|[<-|[<-|[]]]] H; solve [reflexivity | discriminate H].
  - apply (C3_one_container_per_match
             ["    Stream #0:0: Audio: mp3, 44100 Hz, stereo, fltp, 128 kb/s"]).
    intros l [<-|[]]. reflexivity.
Defined.

(** C6, evaluated on the code: whatever diagnostic lines surround it
    (as long as they scan without raising), the line
    [Duration: 00:01:02.34, start: 0.000000, bitrate: 128 kb/s] gives a
    container record, placed after the records of the lines before it.
    The record is built from the line [container_bitrate=128], so its
    instance dictionary has an entry named like the accessor: the call
    [container_bitrate()] finds the text, not the method, and raises
    [TypeError].  The function of the class, applied to the record,
    gives the integer 128. *)
Theorem C6_container_bitrate_shadowed (pre post : list string)
  (cs1 cs2 : list FFContainer.t) :
  FFProbe.container_scan [] pre = Ok cs1 ->
  FFProbe.container_scan [] post = Ok cs2 ->
  exists c,
    FFProbe.container_scan [] (pre ++ duration_line :: post)
    = Ok (cs1 ++ c :: cs2)
    /\ FFContainer.call_container_bitrate c = Raise TypeError
    /\ FFContainer.container_bitrate c = Ok 128%Z
    /\ (forall stdout stderr p,
          FFProbe.__init__ stdout stderr [] = Ok p ->
          exists q,
            FFProbe.__init__ stdout stderr (pre ++ duration_line :: post) = Ok q
            /\ FFProbe.container q = cs1 ++ c :: cs2).
Proof.
  intros H1 H2. exists (recovered duration_line).
  assert (Hscan : FFProbe.container_scan [] (pre ++ duration_line :: post)
                  = Ok (cs1 ++ recovered duration_line :: cs2)).
  { rewrite container_scan_app, H1. cbn [bind FFProbe.container_scan].
    rewrite container_step_announced by reflexivity. cbn [bind].
    rewrite container_scan_acc, H2. cbn [bind].
    rewrite <- app_assoc. reflexivity. }
  split; [exact Hscan|]. split; [reflexivity|]. split; [reflexivity|].
  intros stdout stderr p Hp. unfold FFProbe.__init__ in *.
  destruct (FFProbe.scan FFProbe.initial stdout) as [st1|]; [|discriminate].
  cbn [bind] in *.
  destruct (FFProbe.scan st1 stderr) as [st2|]; [|discriminate].
  cbn [bind] in *.
  destruct (FFProbe.classify (FFProbe.parsed st2)) as [k|]; [|discriminate].
  cbn [bind] in *. rewrite Hscan. cbn [bind]. eexists. split; reflexivity.
Qed.

Lemma C6_container_bitrate_shadowed_witness :
  exists c,
    FFProbe.container_scan []
      (["Input #0, mp3, from 'a.mp3':"] ++ duration_line
       :: ["    Stream #0:0: Audio: mp3, 44100 Hz, stereo, fltp, 128 kb/s"])
    = Ok ([] ++ c :: [])
    /\ FFContainer.call_container_bitrate c = Raise TypeError
    /\ FFContainer.container_bitrate c = Ok 128%Z.
Proof.
  destruct (C6_container_bitrate_shadowed
              ["Input #0, mp3, from 'a.mp3':"]
              ["    Stream #0:0: Audio: mp3, 44100 Hz, stereo, fltp, 128 kb/s"]
              [] [] eq_refl eq_refl) as (c & Hc & Ht & Hb & _).
  exists c. split; [exact Hc|]. split; [exact Ht|exact Hb].
Defined.

(** ** Errors of the frame-rate derivation *)

Lemma split_nonempty (sep : ascii) (s : string) : Py.split sep s <> [].
Proof.
  destruct s as [|c s]; simpl; [discriminate|].
  destruct (Ascii.eqb c sep); [discriminate|].
  destruct (Py.split sep s); discriminate.
Qed.

Lemma truediv_errors (a : FFStream.num) (b : Z) (e : exn) :
  FFStream.truediv a b = Raise e -> arithmetic_error e.
Proof.
  unfold arithmetic_error, FFStream.truediv, Flt.int_truediv,
    Flt.float_truediv_int.
  destruct a as [z|x].
  - destruct (b =? 0)%Z; simpl; [intros HR; injection HR as <-; auto|].
    destruct (Flt.overflows _); simpl; [intros HR; injection HR as <-; auto|discriminate].
  - destruct (Flt.overflows _); simpl; [intros HR; injection HR as <-; auto|].
    destruct (b =? 0)%Z; simpl; [intros HR; injection HR as <-; auto|].
    destruct x; discriminate.
Qed.

Lemma int_of_piece_errors (p : string) (e : exn) :
  FFStream.int_of_piece p = Raise e -> arithmetic_error e.
Proof.
  unfold arithmetic_error, FFStream.int_of_piece.
  destruct (Py.int p); [discriminate|intros HR; injection HR as <-; auto].
Qed.

Lemma reduce_loop_errors (pieces : list string) : forall acc e,
  FFStream.reduce_loop acc pieces = Raise e -> arithmetic_error e.
Proof.
  induction pieces as [|p ps IH]; intros acc e; simpl; [discriminate|].
  destruct (FFStream.int_of_piece p) as [b|e0] eqn:Hp; simpl.
  - destruct (FFStream.truediv acc b) as [acc'|e1] eqn:Hd; simpl.
    + apply IH.
    + intros HR; injection HR as <-. eapply truediv_errors, Hd.
  - intros HR; injection HR as <-. eapply int_of_piece_errors, Hp.
Qed.

Lemma round_num_errors (n : FFStream.num) (e : exn) :
  FFStream.round_num n = Raise e -> arithmetic_error e.
Proof.
  unfold arithmetic_error.
  destruct n as [z|[m x|neg|]]; simpl; try discriminate; intros HR; injection HR as <-; auto.
Qed.

(** On a dictionary of text fields the derivation gives a value or
    raises [OverflowError], the one error the handler lets through. *)
Lemma derive_framerate_outcome (d : dict) :
  text_valued d ->
  (exists v, FFStream.derive_framerate d = Ok v)
  \/ FFStream.derive_framerate d = Raise OverflowError.
Proof.
  intros Hd. unfold FFStream.derive_framerate.
  assert (Hs : exists s, get_default d "avg_frame_rate" (VStr "") = VStr s).
  { unfold get_default. destruct (dict_get d "avg_frame_rate") as [v|] eqn:Hg.
    - apply (Hd _ _ Hg). discriminate.
    - eauto. }
  destruct Hs as [s ->]. cbn [FFStream.split_value bind].
  destruct (Py.split "/" s) as [|p ps] eqn:Hsp;
    [exfalso; exact (split_nonempty _ _ Hsp)|].
  cbn [FFStream.reduce_truediv].
  assert (He : forall e, arithmetic_error e ->
                 (exists v, except_Value_ZeroDivision
                              (@Raise value e) (Ok VNone) = Ok v)
                 \/ except_Value_ZeroDivision (@Raise value e) (Ok VNone)
                    = Raise OverflowError).
  { intros e [-> | [-> | ->]]; simpl; eauto. }
  destruct (FFStream.int_of_piece p) as [a|e] eqn:Hp; cbn [bind].
  - destruct (FFStream.reduce_loop (FFStream.NInt a) ps) as [n|e] eqn:Hl;
      cbn [bind].
    + destruct (FFStream.round_num n) as [z|e] eqn:Hr; cbn [bind].
      * left. eexists. reflexivity.
      * apply He. eapply round_num_errors, Hr.
    + apply He. eapply reduce_loop_errors, Hl.
  - apply He. eapply int_of_piece_errors, Hp.
Qed.

(** ** Decoding the lines of a block *)

Lemma split_eq_app (k r : string) :
  Py.contains "=" k = false ->
  Py.split "=" (String.append k (String "=" r)) = k :: Py.split "=" r.
Proof.
  induction k as [|c k IH]; intros H.
  - reflexivity.
  - apply contains_eq_cons_false in H as [Hc Hk].
    cbn [String.append Py.split]. rewrite Hc, (IH Hk). reflexivity.
Qed.

Lemma split_name_value (name val tail : string) :
  Py.contains "=" name = false -> Py.contains "=" val = false ->
  tail = "" \/ (exists t, tail = String "=" t) ->
  exists rest,
    Py.split "=" (String.append name (String "=" (String.append val tail)))
    = name :: val :: rest.
Proof.
  intros Hn Hv Ht. rewrite split_eq_app by exact Hn.
  destruct Ht as [->|[t ->]].
  - exists []. f_equal.
    replace (String.append val "") with val; [apply split_no_eq, Hv|].
    clear. induction val as [|c v IH]; simpl; congruence.
  - exists (Py.split "=" t). f_equal. apply split_eq_app, Hv.
Qed.

Lemma raw_fields_set_framerate (d : dict) (fr : value) :
  raw_fields (dict_set d "framerate" fr) = raw_fields d.
Proof.
  unfold raw_fields. induction d as [|[k v] d IH].
  - simpl. destruct fr; reflexivity.
  - cbn [dict_set]. destruct (String.eqb_spec k "framerate") as [->|Hne].
    + cbn [flat_map]. f_equal. destruct fr, v; reflexivity.
    + cbn [flat_map]. rewrite IH. reflexivity.
Qed.

Lemma raw_fields_set_new (d : dict) (k v : string) :
  dict_get d k = None -> k <> "framerate" ->
  raw_fields (dict_set d k (VStr v)) = raw_fields d ++ [(k, v)].
Proof.
  intros Hget Hk. unfold raw_fields. induction d as [|[k0 v0] d IH].
  - simpl. destruct (String.eqb_spec k "framerate"); [contradiction|reflexivity].
  - cbn [dict_get] in Hget. cbn [dict_set].
    destruct (String.eqb k0 k); [discriminate|].
    cbn [flat_map]. rewrite (IH Hget), app_assoc. reflexivity.
Qed.

Lemma init_loop_round_trip (fields : list (string * string)) : forall d0,
  text_valued d0 ->
  (forall kv, In kv fields -> plain_field kv /\ dict_get d0 (fst kv) = None) ->
  NoDup (map fst fields) ->
  FFStream.init_loop d0 (map field_line fields) = Raise OverflowError
  \/ exists d, FFStream.init_loop d0 (map field_line fields) = Ok d
               /\ serialize d = serialize d0 ++ map field_line fields.
Proof.
  induction fields as [|[k v] fields IH]; intros d0 Ht Hall Hnd.
  - right. exists d0. simpl. rewrite app_nil_r. auto.
  - destruct (Hall (k, v)) as [(Hk & Hv & Hs & Hf) Hnew]; [simpl; auto|].
    simpl in Hk, Hv, Hf, Hnew. inversion Hnd as [|? ? Hnotin Hnd']; subst.
    cbn [map FFStream.init_loop]. unfold FFStream.update_line.
    assert (Hsp : Py.split "=" (field_line (k, v)) = [k; v]).
    { unfold field_line. cbn [fst snd].
      rewrite split_eq_app, split_no_eq by assumption. reflexivity. }
    rewrite Hs, Hsp.
    assert (Ht1 : text_valued (dict_set d0 k (VStr v)))
      by (apply text_valued_set_text, Ht).
    destruct (derive_framerate_outcome _ Ht1) as [[fr ->]| ->];
      [|left; reflexivity].
    cbn [bind].
    destruct (IH (dict_set (dict_set d0 k (VStr v)) "framerate" fr))
      as [->|(d & -> & Hser)].
    + apply text_valued_set_framerate, Ht1.
    + intros kv Hin. destruct (Hall kv) as [Hp Hg]; [simpl; auto|].
      split; [exact Hp|].
      rewrite dict_get_set_other by (destruct Hp as (_ & _ & _ & Hp); congruence).
      rewrite dict_get_set_other; [exact Hg|].
      intros ->. apply Hnotin. apply in_map_iff. exists kv. auto.
    + exact Hnd'.
    + left. reflexivity.
    + right. exists d. split; [reflexivity|].
      rewrite Hser. unfold serialize.
      rewrite raw_fields_set_framerate, raw_fields_set_new by assumption.
      rewrite map_app, <- app_assoc. reflexivity.
Qed.

(** C1, as stated, fails: for the line [a=b=c] the value stored under
    [a] is [b], the text between the first and the second equals sign,
    not the remainder [b=c]. *)
Lemma C1_counterexample :
  FFStream.__init__ ["a=b=c"] = Ok [("a", VStr "b"); ("framerate", VNone)]
  /\ ~ (exists self, FFStream.__init__ ["a=b=c"] = Ok self
                     /\ dict_get self "a" = Some (VStr "b=c")).
Proof.
  split; [reflexivity|].
  intros (self & Hinit & Hget). injection Hinit as <-. discriminate Hget.
Qed.

(** C1, amended: a body line is stripped and cut at every equals sign;
    the name is the text before the first, the stored value the text
    between the first and the second (or the end of the line), what
    follows a second equals sign is dropped.  For lines with exactly one
    equals sign, nothing to strip, distinct names and no name
    [framerate], decoding (when the frame-rate derivation does not
    overflow) and writing the raw fields back as [name=value]
    reproduces the lines in order. *)
Theorem C1_field_decoder :
  (forall (d : dict) (line name val tail : string),
     Py.strip line = String.append name (String "=" (String.append val tail)) ->
     Py.contains "=" name = false -> Py.contains "=" val = false ->
     tail = "" \/ (exists t, tail = String "=" t) ->
     FFStream.update_line d line
     = (fr <- FFStream.derive_framerate (dict_set d name (VStr val)) ;;
        Ok (dict_set (dict_set d name (VStr val)) "framerate" fr))
     /\ (forall d', FFStream.update_line d line = Ok d' ->
                    name <> "framerate" ->
                    dict_get d' name = Some (VStr val)))
  /\ (forall fields,
        (forall kv, In kv fields -> plain_field kv) ->
        NoDup (map fst fields) ->
        FFStream.__init__ (map field_line fields) = Raise OverflowError
        \/ exists self, FFStream.__init__ (map field_line fields) = Ok self
                        /\ serialize self = map field_line fields).
Proof.
  split.
  - intros d line name val tail Hs Hn Hv Ht.
    destruct (split_name_value name val tail Hn Hv Ht) as [rest Hsp].
    assert (Hu : FFStream.update_line d line
                 = (fr <- FFStream.derive_framerate
                            (dict_set d name (VStr val)) ;;
                    Ok (dict_set (dict_set d name (VStr val)) "framerate" fr))).
    { unfold FFStream.update_line. rewrite Hs, Hsp. reflexivity. }
    split; [exact Hu|].
    intros d' Hd' Hname. rewrite Hu in Hd'.
    apply bind_Ok in Hd' as (fr & _ & Hd'). injection Hd' as <-.
    rewrite dict_get_set_other by congruence. apply dict_get_set_same.
  - intros fields Hall Hnd.
    apply (init_loop_round_trip fields []).
    + apply text_valued_nil.
    + intros kv Hin. split; [apply Hall, Hin|reflexivity].
    + exact Hnd.
Qed.

Lemma C1_field_decoder_witness :
  (FFStream.update_line [] " a=b=c"
   = (fr <- FFStream.derive_framerate (dict_set [] "a" (VStr "b")) ;;
      Ok (dict_set (dict_set [] "a" (VStr "b")) "framerate" fr))
   /\ dict_get [("a", VStr "b"); ("framerate", VNone)] "a" = Some (VStr "b"))
  /\ (exists self,
        FFStream.__init__
          (map field_line [("index", "0"); ("codec_type", "video")]) = Ok self
        /\ serialize self = ["index=0"; "codec_type=video"]).
Proof.
  destruct C1_field_decoder as (H1 & H3).
  split.
  - destruct (H1 [] " a=b=c" "a" "b" "=c" eq_refl eq_refl eq_refl
                (or_intror (ex_intro _ "c" eq_refl))) as (Hu & Hg).
    split; [exact Hu|]. apply Hg; [reflexivity|discriminate].
  - destruct (H3 [("index", "0"); ("codec_type", "video")]) as [H|H].
    + intros kv [<-|[<-|[]]]; repeat split; discriminate.
    + repeat constructor; simpl; intuition discriminate.
    + discriminate H.
    + exact H.
Defined.

(** ** Rounding of the true division *)

Section Rounding.
Local Open Scope Z_scope.




End Rounding.

Section Nearest.
Local Open Scope Z_scope.



End Nearest.

(** ** The derived frame rate *)


Lemma derive_framerate_ext (d d' : dict) :
  dict_get d "avg_frame_rate" = dict_get d' "avg_frame_rate" ->
  FFStream.derive_framerate d = FFStream.derive_framerate d'.
Proof.
  intros H. unfold FFStream.derive_framerate, get_default. rewrite H.
  reflexivity.
Qed.

Lemma update_line_framerate (d d' : dict) (line : string) :
  FFStream.update_line d line = Ok d' ->
  exists fr, dict_get d' "framerate" = Some fr
             /\ FFStream.derive_framerate d' = Ok fr.
Proof.
  intros H. apply update_line_Ok in H as (key & val & rest & fr & _ & Hfr & ->).
  exists fr. split; [apply dict_get_set_same|].
  rewrite <- Hfr. apply derive_framerate_ext.
  apply dict_get_set_other. discriminate.
Qed.

Lemma init_loop_framerate (data_lines : list string) : forall d self,
  data_lines <> [] -> FFStream.init_loop d data_lines = Ok self ->
  exists fr, dict_get self "framerate" = Some fr
             /\ FFStream.derive_framerate self = Ok fr.
Proof.
  induction data_lines as [|line rest IH]; intros d self Hne H; [congruence|].
  cbn [FFStream.init_loop] in H. apply bind_Ok in H as (d' & Hu & Hrest).
  destruct rest as [|line' rest].
  - injection Hrest as <-. eapply update_line_framerate, Hu.
  - eapply IH; [discriminate|exact Hrest].
Qed.







(** ** Errors of the construction *)

Lemma update_line_errors (d : dict) (line : string) (e : exn) :
  text_valued d -> FFStream.update_line d line = Raise e ->
  construction_error e.
Proof.
  intros Hd. unfold FFStream.update_line, construction_error.
  destruct (Py.split "=" (Py.strip line)) as [|key [|val rest]];
    try (intros HR; injection HR as <-; auto).
  destruct (derive_framerate_outcome (dict_set d key (VStr val))) as [[v ->]| ->].
  - apply text_valued_set_text, Hd.
  - discriminate.
  - cbn [bind]. intros HR; injection HR as <-; auto.
Qed.

Lemma init_loop_errors (data_lines : list string) : forall d e,
  text_valued d -> FFStream.init_loop d data_lines = Raise e ->
  construction_error e.
Proof.
  induction data_lines as [|line rest IH]; intros d e Hd; simpl;
    [discriminate|].
  destruct (FFStream.update_line d line) as [d'|e0] eqn:Hu; cbn [bind].
  - apply IH. eapply update_line_text_valued; eauto.
  - intros HR; injection HR as <-. eapply update_line_errors; eauto.
Qed.

Lemma scan_errors (lines : list string) : forall st e,
  FFProbe.scan st lines = Raise e -> construction_error e.
Proof.
  induction lines as [|line rest IH]; intros st e; simpl; [discriminate|].
  destruct (FFProbe.step st line) as [st'|e0] eqn:Hs; cbn [bind].
  - apply IH.
  - intros HR; injection HR as <-. unfold FFProbe.step in Hs.
    destruct (Py.contains "[STREAM]" line); [discriminate|].
    destruct (Py.contains "[/STREAM]" line && FFProbe.stream st).
    + unfold FFStream.__init__ in Hs.
      destruct (FFStream.init_loop [] (FFProbe.data_lines st)) as [s|e1] eqn:Hi;
        [discriminate|].
      cbn [bind] in Hs. injection Hs as <-.
      eapply init_loop_errors; [apply text_valued_nil|exact Hi].
    + destruct (FFProbe.stream st); discriminate.
Qed.

(** C2, as stated, fails: the block with the line that has no equals
    sign is not skipped, the analysis raises and gives no record of the
    two well-formed blocks around it. *)
Lemma C2_counterexample :
  FFProbe.__init__
    ["[STREAM]"; "codec_type=video"; "[/STREAM]";
     "[STREAM]"; "codec_type"; "[/STREAM]";
     "[STREAM]"; "codec_type=audio"; "[/STREAM]"] [] []
  = Raise ValueError.
Proof. reflexivity. Qed.

(** C2, amended: a body line with no equals sign makes the unpacking of
    [FFStream.__init__] raise [ValueError]; nothing catches the errors
    of the constructor, so closing a block that holds such a line, on
    either channel, aborts the whole analysis: it raises ([ValueError],
    or [OverflowError] when a frame-rate derivation overflowed first)
    and gives no result. *)
Theorem C2_missing_equals_aborts
  (pre body post other mkverr : list string) (line : string) :
  no_marker body -> In line body -> Py.contains "=" line = false ->
  (forall d, FFStream.update_line d line = Raise ValueError)
  /\ (exists e,
        construction_error e
        /\ FFProbe.__init__ (pre ++ "[STREAM]" :: body ++ "[/STREAM]" :: post)
             other mkverr = Raise e)
  /\ (exists e,
        construction_error e
        /\ FFProbe.__init__ other
             (pre ++ "[STREAM]" :: body ++ "[/STREAM]" :: post) mkverr
           = Raise e).
Proof.
  intros Hnm Hin Hne.
  destruct (init_loop_no_eq body line Hin Hne []) as [e He].
  assert (Hce : construction_error e).
  { eapply init_loop_errors; [apply text_valued_nil|exact He]. }
  split; [intros d; apply update_line_no_eq, Hne|].
  unfold FFProbe.__init__. split.
  - rewrite scan_app.
    destruct (FFProbe.scan FFProbe.initial pre) as [st|e0] eqn:Hpre;
      cbn [bind]; [|eauto using scan_errors].
    rewrite (scan_block body post st Hnm).
    unfold FFStream.__init__. rewrite He. cbn [bind]. eauto.
  - destruct (FFProbe.scan FFProbe.initial other) as [st1|e0] eqn:Hother;
      cbn [bind]; [|eauto using scan_errors].
    rewrite scan_app.
    destruct (FFProbe.scan st1 pre) as [st|e0] eqn:Hpre; cbn [bind];
      [|eauto using scan_errors].
    rewrite (scan_block body post st Hnm).
    unfold FFStream.__init__. rewrite He. cbn [bind]. eauto.
Qed.

Lemma C2_missing_equals_aborts_witness :
  (forall d, FFStream.update_line d "codec_type" = Raise ValueError)
  /\ (exists e,
        construction_error e
        /\ FFProbe.__init__
             (["[STREAM]"; "codec_type=video"; "[/STREAM]"]
              ++ "[STREAM]" :: ["index=1"; "codec_type"] ++ "[/STREAM]"
              :: ["[STREAM]"; "codec_type=audio"; "[/STREAM]"]) [] []
           = Raise e)
  /\ (exists e,
        construction_error e
        /\ FFProbe.__init__ []
             (["[STREAM]"; "codec_type=video"; "[/STREAM]"]
              ++ "[STREAM]" :: ["index=1"; "codec_type"] ++ "[/STREAM]"
              :: ["[STREAM]"; "codec_type=audio"; "[/STREAM]"]) []
           = Raise e).
Proof.
  apply (C2_missing_equals_aborts
           ["[STREAM]"; "codec_type=video"; "[/STREAM]"]
           ["index=1"; "codec_type"]
           ["[STREAM]"; "codec_type=audio"; "[/STREAM]"] [] [] "codec_type").
  - intros l [<-|[<-|[]]]; split; reflexivity.
  - simpl. auto.
  - reflexivity.
Defined.

(** * Further properties *)

(** ** Channels made of whole blocks *)

Lemma scan_junk (junk : list string) (st : FFProbe.parser) :
  FFProbe.stream st = false -> no_open junk -> FFProbe.scan st junk = Ok st.
Proof.
  intros Hst. induction junk as [|l junk IH]; intros Hno; [reflexivity|].
  cbn [FFProbe.scan]. unfold FFProbe.step.
  rewrite (Hno l) by (simpl; auto). rewrite Hst, andb_false_r. cbn [bind].
  apply IH. intros x Hx. apply Hno. simpl; auto.
Qed.

Lemma last_cons_default {A : Type} (l : list A) : forall x d,
  last (x :: l) d = last l x.
Proof.
  induction l as [|y l IH]; intros x d; [reflexivity|].
  change (last (x :: y :: l) d) with (last (y :: l) d).
  rewrite (IH y d), (IH y x). reflexivity.
Qed.

Lemma scan_render (bs : list (list string * list string)) : forall st,
  FFProbe.stream st = false -> well_formed bs ->
  FFProbe.scan st (render bs)
  = (rs <- construct_all (map snd bs) ;;
     Ok (FFProbe.Parser false (last (map snd bs) (FFProbe.data_lines st))
           (FFProbe.parsed st ++ rs))).
Proof.
  induction bs as [|[junk body] bs IH]; intros st Hst Hwf.
  - destruct st as [b buf ps]. simpl in *. subst b. rewrite app_nil_r.
    reflexivity.
  - destruct (Hwf (junk, body)) as [Hj Hb]; [simpl; auto|]. simpl in Hj, Hb.
    cbn [render map snd construct_all].
    rewrite scan_app, (scan_junk junk st Hst Hj). cbn [bind].
    rewrite (scan_block body (render bs) st Hb).
    destruct (FFStream.__init__ body) as [s|e]; cbn [bind]; [|reflexivity].
    rewrite IH; [|reflexivity|intros jb Hin; apply Hwf; simpl; auto].
    cbn [FFProbe.parsed FFProbe.data_lines].
    destruct (construct_all (map snd bs)) as [ss|e]; cbn [bind]; [|reflexivity].
    rewrite <- app_assoc. cbn [app].
    rewrite last_cons_default. reflexivity.
Qed.

Lemma construct_all_app (a b : list (list string)) :
  construct_all (a ++ b)
  = (ra <- construct_all a ;; rb <- construct_all b ;; Ok (ra ++ rb)).
Proof.
  induction a as [|x a IH]; cbn [app construct_all bind].
  - destruct (construct_all b); reflexivity.
  - destruct (FFStream.__init__ x) as [s|e]; cbn [bind]; [|reflexivity].
    rewrite IH.
    destruct (construct_all a) as [ra|e]; cbn [bind]; [|reflexivity].
    destruct (construct_all b) as [rb|e]; reflexivity.
Qed.

Lemma classify_one_spec (k : FFProbe.kinds) (s : FFStream.t) :
  FFProbe.classify_one k s
  = if hides_kind_test s then Raise TypeError
    else Ok (FFProbe.Kinds
               (FFProbe.k_video k ++ filter FFStream.is_video [s])
               (FFProbe.k_audio k ++ filter FFStream.is_audio [s])
               (FFProbe.k_subtitle k ++ filter FFStream.is_subtitle [s])
               (FFProbe.k_attachment k ++ filter FFStream.is_attachment [s])).
Proof.
  unfold FFProbe.classify_one, hides_kind_test, has_key,
    FFStream.call_is_audio, FFStream.call_is_video,
    FFStream.call_is_subtitle, FFStream.call_is_attachment, invoke.
  cbn [filter].
  destruct (dict_get s "is_audio"); [reflexivity|]. cbn [bind orb].
  destruct (FFStream.is_audio s) eqn:Ha.
  { rewrite (is_audio_not_video s Ha), (is_audio_not_subtitle s Ha),
      (is_audio_not_attachment s Ha), !app_nil_r. reflexivity. }
  cbn [negb andb].
  destruct (dict_get s "is_video"); [reflexivity|]. cbn [bind orb].
  destruct (FFStream.is_video s) eqn:Hv.
  { rewrite (is_video_not_subtitle s Hv), (is_video_not_attachment s Hv),
      !app_nil_r. reflexivity. }
  cbn [negb andb].
  destruct (dict_get s "is_subtitle"); [reflexivity|]. cbn [bind orb].
  destruct (FFStream.is_subtitle s) eqn:Hs.
  { rewrite (is_subtitle_not_attachment s Hs), !app_nil_r. reflexivity. }
  cbn [negb andb].
  destruct (dict_get s "is_attachment"); [reflexivity|]. cbn [bind].
  destruct (FFStream.is_attachment s); rewrite ?app_nil_r; destruct k;
    reflexivity.
Qed.

Lemma classify_loop_spec (l : list FFStream.t) : forall k,
  FFProbe.classify_loop k l
  = if existsb hides_kind_test l then Raise TypeError
    else Ok (FFProbe.Kinds
               (FFProbe.k_video k ++ filter FFStream.is_video l)
               (FFProbe.k_audio k ++ filter FFStream.is_audio l)
               (FFProbe.k_subtitle k ++ filter FFStream.is_subtitle l)
               (FFProbe.k_attachment k ++ filter FFStream.is_attachment l)).
Proof.
  induction l as [|s l IH]; intros k.
  - destruct k. simpl. rewrite !app_nil_r. reflexivity.
  - cbn [FFProbe.classify_loop existsb]. rewrite classify_one_spec.
    destruct (hides_kind_test s); [reflexivity|]. cbn [bind orb].
    rewrite IH. destruct (existsb hides_kind_test l); [reflexivity|].
    cbn [FFProbe.k_video FFProbe.k_audio FFProbe.k_subtitle
           FFProbe.k_attachment filter].
    rewrite <- !app_assoc.
    destruct (FFStream.is_video s), (FFStream.is_audio s),
      (FFStream.is_subtitle s), (FFStream.is_attachment s); reflexivity.
Qed.

Lemma init_probe_of (stdout stderr mkverr : list string) :
  FFProbe.__init__ stdout stderr mkverr
  = (st1 <- FFProbe.scan FFProbe.initial stdout ;;
     st2 <- FFProbe.scan st1 stderr ;;
     if existsb hides_kind_test (FFProbe.parsed st2) then Raise TypeError
     else cs <- FFProbe.container_scan [] mkverr ;;
          Ok (probe_of (FFProbe.parsed st2) cs)).
Proof.
  unfold FFProbe.__init__, FFProbe.classify, probe_of.
  destruct (FFProbe.scan FFProbe.initial stdout) as [st1|e]; cbn [bind];
    [|reflexivity].
  destruct (FFProbe.scan st1 stderr) as [st2|e]; cbn [bind]; [|reflexivity].
  rewrite classify_loop_spec.
  destruct (existsb hides_kind_test (FFProbe.parsed st2)); reflexivity.
Qed.

(** X1: on two channels made of whole blocks (bodies without markers,
    the lines between blocks without an opening marker), the analysis
    builds one record per block body, [stdout] blocks first, in order;
    the first body whose construction raises aborts it.  The
    classification then raises [TypeError] if one of the records has an
    entry named like a kind test that is called on it (such an entry
    hides the method); otherwise the diagnostic lines are scanned and
    the four partition lists are the records of each kind in the same
    order. *)
Theorem X1_whole_blocks
  (bs1 bs2 : list (list string * list string))
  (tail1 tail2 mkverr : list string) :
  well_formed bs1 -> no_open tail1 -> well_formed bs2 -> no_open tail2 ->
  FFProbe.__init__ (render bs1 ++ tail1) (render bs2 ++ tail2) mkverr
  = (rs <- construct_all (map snd (bs1 ++ bs2)) ;;
     if existsb hides_kind_test rs then Raise TypeError
     else cs <- FFProbe.container_scan [] mkverr ;;
          Ok (probe_of rs cs)).
Proof.
  intros Hw1 Ht1 Hw2 Ht2. rewrite init_probe_of, map_app, construct_all_app.
  rewrite scan_app, (scan_render bs1 FFProbe.initial eq_refl Hw1).
  destruct (construct_all (map snd bs1)) as [r1|e]; cbn [bind]; [|reflexivity].
  rewrite scan_junk by (assumption || reflexivity). cbn [bind].
  rewrite scan_app, scan_render by (assumption || reflexivity).
  destruct (construct_all (map snd bs2)) as [r2|e]; cbn [bind]; [|reflexivity].
  rewrite scan_junk by (assumption || reflexivity). reflexivity.
Qed.

Lemma X1_whole_blocks_witness :
  FFProbe.__init__
    (render [(["banner"], ["index=0"; "codec_type=video"]);
             ([], ["index=1"; "codec_type=audio"])] ++ ["[/STREAM]"])
    (render [(["warning"], ["index=2"; "codec_type=data"])] ++ []) []
  = Ok (probe_of
          [[("index", VStr "0"); ("framerate", VNone);
            ("codec_type", VStr "video")];
           [("index", VStr "1"); ("framerate", VNone);
            ("codec_type", VStr "audio")];
           [("index", VStr "2"); ("framerate", VNone);
            ("codec_type", VStr "data")]] [])
  /\ FFProbe.__init__ (render [([], ["is_audio=1"])] ++ []) (render [] ++ []) []
     = Raise TypeError.
Proof.
  split.
  - rewrite X1_whole_blocks.
    + reflexivity.
    + intros jb [<-|[<-|[]]]; split; intros l Hl; simpl in Hl;
        repeat (destruct Hl as [<-|Hl]; [try split; reflexivity|]);
        destruct Hl.
    + intros l [<-|[]]. reflexivity.
    + intros jb [<-|[]]; split; intros l Hl; simpl in Hl;
        repeat (destruct Hl as [<-|Hl]; [try split; reflexivity|]);
        destruct Hl.
    + intros l [].
  - rewrite X1_whole_blocks.
    + reflexivity.
    + intros jb [<-|[]]; split; intros l Hl; simpl in Hl;
        repeat (destruct Hl as [<-|Hl]; [try split; reflexivity|]);
        destruct Hl.
    + intros l [].
    + intros jb [].
    + intros l [].
Defined.

(** ** Partition lists *)

Lemma filter_lengths (l : list FFStream.t) :
  (List.length (filter FFStream.is_video l)
   + List.length (filter FFStream.is_audio l)
   + List.length (filter FFStream.is_subtitle l)
   + List.length (filter FFStream.is_attachment l)
   + List.length (filter (fun r => negb (FFStream.is_video r
                                         || FFStream.is_audio r
                                         || FFStream.is_subtitle r
                                         || FFStream.is_attachment r)) l)
   = List.length l)%nat.
Proof.
  induction l as [|s l IH]; [reflexivity|].
  cbn [filter].
  destruct (FFStream.is_audio s) eqn:Ha.
  - rewrite (is_audio_not_video s Ha), (is_audio_not_subtitle s Ha),
      (is_audio_not_attachment s Ha). simpl. lia.
  - destruct (FFStream.is_video s) eqn:Hv.
    + rewrite (is_video_not_subtitle s Hv), (is_video_not_attachment s Hv).
      simpl. lia.
    + destruct (FFStream.is_subtitle s) eqn:Hs.
      * rewrite (is_subtitle_not_attachment s Hs). simpl. lia.
      * destruct (FFStream.is_attachment s); simpl; lia.
Qed.

(** X2: in every result each partition list is the sublist of the full
    list with that [codec_type], in the same order and with the same
    repetitions; the records in no partition are those with another or
    no [codec_type], so the five counts add up to the length of the full
    list. *)
Theorem X2_partitions_are_filters
  (stdout stderr mkverr : list string) (p : FFProbe.t) :
  FFProbe.__init__ stdout stderr mkverr = Ok p ->
  FFProbe.video p = filter FFStream.is_video (FFProbe.streams p)
  /\ FFProbe.audio p = filter FFStream.is_audio (FFProbe.streams p)
  /\ FFProbe.subtitle p = filter FFStream.is_subtitle (FFProbe.streams p)
  /\ FFProbe.attachment p = filter FFStream.is_attachment (FFProbe.streams p)
  /\ (List.length (FFProbe.video p) + List.length (FFProbe.audio p)
      + List.length (FFProbe.subtitle p) + List.length (FFProbe.attachment p)
      + List.length
          (filter (fun r => negb (FFStream.is_video r || FFStream.is_audio r
                                  || FFStream.is_subtitle r
                                  || FFStream.is_attachment r))
             (FFProbe.streams p))
      = List.length (FFProbe.streams p))%nat.
Proof.
  rewrite init_probe_of. intros H.
  apply bind_Ok in H as (st1 & _ & H). apply bind_Ok in H as (st2 & _ & H).
  destruct (existsb hides_kind_test (FFProbe.parsed st2)); [discriminate|].
  apply bind_Ok in H as (cs & _ & H). injection H as <-.
  unfold probe_of. cbn [FFProbe.video FFProbe.audio FFProbe.subtitle
                          FFProbe.attachment FFProbe.streams].
  repeat (split; [reflexivity|]). apply filter_lengths.
Qed.

Lemma X2_partitions_are_filters_witness :
  exists p,
    FFProbe.__init__
      ["[STREAM]"; "codec_type=audio"; "index=0"; "[/STREAM]";
       "[STREAM]"; "codec_type=video"; "[/STREAM]";
       "[STREAM]"; "codec_type=audio"; "index=2"; "[/STREAM]"] [] [] = Ok p
    /\ FFProbe.audio p = filter FFStream.is_audio (FFProbe.streams p)
    /\ List.length (FFProbe.audio p) = 2%nat.
Proof.
  eexists. split; [reflexivity|].
  match goal with
  | |- FFProbe.audio ?p = _ /\ _ =>
      destruct (X2_partitions_are_filters
                  ["[STREAM]"; "codec_type=audio"; "index=0"; "[/STREAM]";
                   "[STREAM]"; "codec_type=video"; "[/STREAM]";
                   "[STREAM]"; "codec_type=audio"; "index=2"; "[/STREAM]"]
                  [] [] p eq_refl) as (_ & H & _)
  end.
  split; [exact H|reflexivity].
Defined.

(** ** The two block loops together *)

Lemma step_parsed_prefix (st st' : FFProbe.parser) (line : string) :
  FFProbe.step st line = Ok st' ->
  exists new, FFProbe.parsed st' = FFProbe.parsed st ++ new.
Proof.
  unfold FFProbe.step.
  destruct (Py.contains "[STREAM]" line).
  - intros H. injection H as <-. exists []. simpl. rewrite app_nil_r. reflexivity.
  - destruct (Py.contains "[/STREAM]" line && FFProbe.stream st).
    + intros H. apply bind_Ok in H as (s & _ & H). injection H as <-.
      exists [s]. reflexivity.
    + destruct (FFProbe.stream st); intros H; injection H as <-; exists [];
        simpl; rewrite app_nil_r; reflexivity.
Qed.

Lemma scan_parsed_prefix (lines : list string) : forall st st',
  FFProbe.scan st lines = Ok st' ->
  exists new, FFProbe.parsed st' = FFProbe.parsed st ++ new.
Proof.
  induction lines as [|l lines IH]; intros st st' H.
  - injection H as <-. exists []. rewrite app_nil_r. reflexivity.
  - cbn [FFProbe.scan] in H. apply bind_Ok in H as (st1 & Hs & H).
    apply step_parsed_prefix in Hs as (n1 & Hn1).
    apply IH in H as (n2 & Hn2). exists (n1 ++ n2).
    rewrite Hn2, Hn1, app_assoc. reflexivity.
Qed.

Lemma step_shifted (ps : list FFStream.t) (a b : FFProbe.parser)
  (line : string) :
  shifted ps a b ->
  shifted_results ps (FFProbe.step a line) (FFProbe.step b line).
Proof.
  intros (Hs & Hd & Hp). unfold FFProbe.step. rewrite <- Hs.
  destruct (Py.contains "[STREAM]" line).
  - simpl. unfold shifted. simpl. auto.
  - destruct (FFProbe.stream a) eqn:Ha.
    + rewrite <- (Hd eq_refl).
      destruct (Py.contains "[/STREAM]" line); cbn [andb].
      * destruct (FFStream.__init__ (FFProbe.data_lines a)) as [s|e];
          cbn [bind shifted_results]; [|reflexivity].
        unfold shifted. simpl. rewrite Hp, app_assoc.
        split; [reflexivity|]. split; [discriminate|reflexivity].
      * unfold shifted_results, shifted. simpl. auto.
    + rewrite andb_false_r. unfold shifted_results, shifted. simpl.
      rewrite Ha. split; [exact Hs|]. split; [discriminate|exact Hp].
Qed.

Lemma scan_shifted (ps : list FFStream.t) (lines : list string) : forall a b,
  shifted ps a b ->
  shifted_results ps (FFProbe.scan a lines) (FFProbe.scan b lines).
Proof.
  induction lines as [|l lines IH]; intros a b Hab; [exact Hab|].
  cbn [FFProbe.scan]. pose proof (step_shifted ps a b l Hab) as Hstep.
  destruct (FFProbe.step a l) as [a'|e], (FFProbe.step b l) as [b'|e'];
    cbn [bind shifted_results] in *; try contradiction.
  - apply IH, Hstep.
  - exact Hstep.
Qed.

Lemma skipn_length_app {A : Type} (l l' : list A) :
  skipn (List.length l) (l ++ l') = l'.
Proof. induction l as [|x l IH]; [reflexivity|exact IH]. Qed.

(** X3: the records built while [stdout] is read stay, in order, at the
    front of the full list, followed by those built while [stderr] is
    read; and when [stdout] ends outside a block, the records of
    [stderr] are those that [stderr] gives on its own. *)
Theorem X3_stdout_then_stderr (stdout : list string) (st1 : FFProbe.parser) :
  FFProbe.scan FFProbe.initial stdout = Ok st1 ->
  (forall stderr mkverr p,
     FFProbe.__init__ stdout stderr mkverr = Ok p ->
     exists new, stderr_blocks stdout stderr = Ok new
                 /\ FFProbe.streams p = FFProbe.parsed st1 ++ new)
  /\ (FFProbe.stream st1 = false ->
      forall stderr, stderr_blocks stdout stderr = stderr_blocks [] stderr).
Proof.
  intros H1. split.
  - intros stderr mkverr p Hp.
    apply init_Ok in Hp as (st1' & st2 & cs & H1' & H2 & _ & ->).
    rewrite H1 in H1'. injection H1' as <-.
    destruct (scan_parsed_prefix _ _ _ H2) as [new Hnew].
    exists new. unfold stderr_blocks. rewrite H1. cbn [bind]. rewrite H2.
    cbn [bind FFProbe.streams]. rewrite Hnew, skipn_length_app. auto.
  - intros Hout stderr. unfold stderr_blocks. rewrite H1.
    cbn [FFProbe.scan bind].
    assert (Hsh : shifted (FFProbe.parsed st1) st1 FFProbe.initial).
    { unfold shifted. rewrite Hout. simpl. rewrite app_nil_r.
      split; [reflexivity|]. split; [discriminate|reflexivity]. }
    pose proof (scan_shifted _ stderr _ _ Hsh) as Hres.
    destruct (FFProbe.scan st1 stderr) as [a|e],
             (FFProbe.scan FFProbe.initial stderr) as [b|e'];
      cbn [shifted_results bind] in *; try contradiction.
    + destruct Hres as (_ & _ & Hp). rewrite Hp, skipn_length_app. reflexivity.
    + congruence.
Qed.

Lemma X3_stdout_then_stderr_witness :
  stderr_blocks ["[STREAM]"; "index=0"; "[/STREAM]"; "index=9"]
    ["[STREAM]"; "index=1"; "[/STREAM]"]
  = stderr_blocks [] ["[STREAM]"; "index=1"; "[/STREAM]"].
Proof.
  destruct (X3_stdout_then_stderr
              ["[STREAM]"; "index=0"; "[/STREAM]"; "index=9"] _ eq_refl)
    as (_ & H).
  apply H. reflexivity.
Defined.

(** X4: an opening marker discards whatever precedes it since the last
    closing marker: lines without a closing marker followed by an
    opening marker leave no record and no error, also when they begin a
    block of their own. *)
Theorem X4_opening_marker_restarts (pre rest stderr mkverr : list string) :
  no_close pre ->
  FFProbe.__init__ (pre ++ "[STREAM]" :: rest) stderr mkverr
  = FFProbe.__init__ ("[STREAM]" :: rest) stderr mkverr.
Proof.
  intros Hnc. unfold FFProbe.__init__. rewrite scan_app.
  destruct (scan_no_close pre FFProbe.initial Hnc) as (b & buf & ->).
  reflexivity.
Qed.

Lemma X4_opening_marker_restarts_witness :
  FFProbe.__init__
    (["[STREAM]"; "index=0"; "codec_type"] ++ "[STREAM]"
     :: ["index=1"; "[/STREAM]"]) [] []
  = FFProbe.__init__ ("[STREAM]" :: ["index=1"; "[/STREAM]"]) [] [].
Proof.
  apply X4_opening_marker_restarts.
  intros l [<-|[<-|[<-|[]]]]; reflexivity.
Defined.

(** ** Field lookup on a constructed record *)

Lemma init_loop_lookup (name : string) (data_lines : list string) :
  name <> "framerate" ->
  forall d self,
    FFStream.init_loop d data_lines = Ok self ->
    dict_get self name = match last_value name data_lines with
                         | Some v => Some (VStr v)
                         | None => dict_get d name
                         end.
Proof.
  intros Hname. induction data_lines as [|line rest IH]; intros d self H.
  - injection H as <-. reflexivity.
  - cbn [FFStream.init_loop] in H. apply bind_Ok in H as (d' & Hu & H).
    rewrite (IH _ _ H). cbn [last_value].
    destruct (last_value name rest); [reflexivity|].
    apply update_line_Ok in Hu as (key & val & tl & fr & -> & _ & ->).
    rewrite dict_get_set_other by congruence.
    rewrite dict_get_set. destruct (String.eqb key name); reflexivity.
Qed.

Lemma get_default_last (name : string) (data_lines : list string)
  (self : FFStream.t) :
  name <> "framerate" -> FFStream.__init__ data_lines = Ok self ->
  get_default self name VNone = text_or_none (last_value name data_lines).
Proof.
  intros Hname H. unfold get_default.
  rewrite (init_loop_lookup name data_lines Hname [] self H).
  destruct (last_value name data_lines); reflexivity.
Qed.

(** X5: in a constructed record a name other than [framerate] maps to
    the value of the last line with that name, and is absent when no
    line has it.  So the calls [pixel_format()], [language()],
    [codec()], [codec_description()] and [codec_tag()] return the value
    of the last line named [pix_fmt], [TAG:language], [codec_name],
    [codec_long_name] and [codec_tag_string], or [None], as long as no
    line is named like the accessor itself; such a line hides the
    method and the call raises [TypeError]. *)
Theorem X5_last_line_wins (data_lines : list string) (self : FFStream.t) :
  FFStream.__init__ data_lines = Ok self ->
  (forall name, name <> "framerate" ->
     dict_get self name = option_map VStr (last_value name data_lines))
  /\ FFStream.call_pixel_format self
     = accessed data_lines "pixel_format" "pix_fmt"
  /\ FFStream.call_language self
     = accessed data_lines "language" "TAG:language"
  /\ FFStream.call_codec self = accessed data_lines "codec" "codec_name"
  /\ FFStream.call_codec_description self
     = accessed data_lines "codec_description" "codec_long_name"
  /\ FFStream.call_codec_tag self
     = accessed data_lines "codec_tag" "codec_tag_string".
Proof.
  intros H.
  assert (Hget : forall name, name <> "framerate" ->
            dict_get self name = option_map VStr (last_value name data_lines)).
  { intros name Hname.
    rewrite (init_loop_lookup name data_lines Hname [] self H).
    destruct (last_value name data_lines); reflexivity. }
  split; [exact Hget|].
  unfold FFStream.call_pixel_format, FFStream.call_language,
    FFStream.call_codec, FFStream.call_codec_description,
    FFStream.call_codec_tag, invoke, accessed.
  repeat split;
    (rewrite Hget by discriminate;
     match goal with
     | |- context [last_value ?m data_lines] =>
         destruct (last_value m data_lines); [reflexivity|]
     end;
     cbn [option_map]; f_equal; apply get_default_last;
     (discriminate || exact H)).
Qed.

Lemma X5_last_line_wins_witness :
  FFStream.call_codec
    [("codec_name", VStr "aac"); ("framerate", VNone); ("index", VStr "1")]
  = Ok (VStr "aac")
  /\ FFStream.call_language
       [("codec_name", VStr "aac"); ("framerate", VNone); ("index", VStr "1")]
     = Ok VNone
  /\ FFStream.call_codec_tag
       [("codec_tag_string", VStr "avc1"); ("framerate", VNone);
        ("codec_tag", VStr "0x31637661")]
     = Raise TypeError.
Proof.
  destruct (X5_last_line_wins ["codec_name=h264"; "index=1"; "codec_name=aac"]
              _ eq_refl) as (_ & _ & Hl & Hc & _).
  destruct (X5_last_line_wins ["codec_tag_string=avc1"; "codec_tag=0x31637661"]
              _ eq_refl) as (_ & _ & _ & _ & _ & Ht).
  split; [exact Hc|]. split; [exact Hl|exact Ht].
Defined.

(** ** The framerate entry *)

Lemma derive_framerate_kind (d : dict) (v : value) :
  FFStream.derive_framerate d = Ok v -> v = VNone \/ exists z, v = VInt z.
Proof.
  unfold FFStream.derive_framerate.
  destruct (FFStream.split_value _) as [pieces|e]; cbn [bind].
  - destruct (FFStream.reduce_truediv pieces) as [n|e]; cbn [bind].
    + destruct (FFStream.round_num n) as [z|e]; cbn [bind].
      * intros H. injection H as <-. right. eauto.
      * destruct e; simpl; intros H; try discriminate; injection H as <-; auto.
    + destruct e; simpl; intros H; try discriminate; injection H as <-; auto.
  - destruct e; simpl; intros H; try discriminate; injection H as <-; auto.
Qed.

(** X6: a record built from at least one line always has a [framerate]
    entry, and the entry is an integer or [None]: a raw line named
    [framerate] is overwritten by the derived value.  A record built
    from no line at all has no entry, not even [framerate]. *)
Theorem X6_framerate_entry :
  FFStream.__init__ [] = Ok []
  /\ forall data_lines self,
       data_lines <> [] -> FFStream.__init__ data_lines = Ok self ->
       dict_get self "framerate" = Some VNone
       \/ exists z, dict_get self "framerate" = Some (VInt z).
Proof.
  split; [reflexivity|]. intros data_lines self Hne H.
  destruct (init_loop_framerate data_lines [] self Hne H) as (fr & Hg & Hd).
  rewrite Hg. apply derive_framerate_kind in Hd as [->|[z ->]]; eauto.
Qed.

Lemma X6_framerate_entry_witness :
  dict_get [("framerate", VInt 30); ("avg_frame_rate", VStr "30/1")]
    "framerate" = Some VNone
  \/ exists z,
       dict_get [("framerate", VInt 30); ("avg_frame_rate", VStr "30/1")]
         "framerate" = Some (VInt z).
Proof.
  destruct X6_framerate_entry as (_ & H).
  apply (H ["framerate=fast"; "avg_frame_rate=30/1"]);
    [discriminate|reflexivity].
Defined.

(** ** When the construction of a record succeeds *)

Lemma split_with_eq (s : string) :
  Py.contains "=" s = true ->
  exists key val rest, Py.split "=" s = key :: val :: rest.
Proof.
  induction s as [|c s IH]; [discriminate|].
  rewrite contains_eq_cons. cbn [Py.split].
  destruct (Ascii.eqb c "=") eqn:Hc; cbn [orb].
  - intros _. destruct (Py.split "=" s) as [|p ps] eqn:Hs;
      [exfalso; exact (split_nonempty _ _ Hs)|]. eauto.
  - intros H. destruct (IH H) as (key & val & rest & ->). eauto.
Qed.

Lemma lstrip_keeps_eq (s : string) :
  Py.contains "=" s = true -> Py.contains "=" (Py.lstrip s) = true.
Proof.
  induction s as [|c s IH]; [discriminate|].
  intros H. cbn [Py.lstrip]. destruct (Py.isspace c) eqn:Hsp; [|exact H].
  apply IH. rewrite contains_eq_cons in H.
  destruct (Ascii.eqb_spec c "=") as [->|_]; [discriminate Hsp|exact H].
Qed.

Lemma rstrip_keeps_eq (s : string) :
  Py.contains "=" s = true -> Py.contains "=" (Py.rstrip s) = true.
Proof.
  induction s as [|c s IH]; [discriminate|].
  rewrite contains_eq_cons. intros H. cbn [Py.rstrip].
  destruct (Ascii.eqb_spec c "=") as [->|Hne].
  - destruct (Py.rstrip s); reflexivity.
  - cbn [orb] in H. specialize (IH H).
    destruct (Py.rstrip s) as [|c' r]; [discriminate IH|].
    rewrite contains_eq_cons, IH. apply orb_true_r.
Qed.

Lemma update_line_with_eq (d : dict) (line : string) :
  Py.contains "=" line = true ->
  exists key val rest,
    Py.split "=" (Py.strip line) = key :: val :: rest
    /\ FFStream.update_line d line
       = (fr <- FFStream.derive_framerate (dict_set d key (VStr val)) ;;
          Ok (dict_set (dict_set d key (VStr val)) "framerate" fr)).
Proof.
  intros H.
  destruct (split_with_eq (Py.strip line)) as (key & val & rest & Hs).
  { apply rstrip_keeps_eq, lstrip_keeps_eq, H. }
  exists key, val, rest. split; [exact Hs|].
  unfold FFStream.update_line. rewrite Hs. reflexivity.
Qed.

Lemma init_loop_with_eq (data_lines : list string) : forall d,
  text_valued d ->
  (forall l, In l data_lines -> Py.contains "=" l = true) ->
  FFStream.init_loop d data_lines = Raise OverflowError
  \/ exists self, FFStream.init_loop d data_lines = Ok self.
Proof.
  induction data_lines as [|line rest IH]; intros d Hd Hall.
  - right. exists d. reflexivity.
  - cbn [FFStream.init_loop].
    destruct (update_line_with_eq d line) as (key & val & tl & _ & ->);
      [apply Hall; simpl; auto|].
    assert (Ht : text_valued (dict_set d key (VStr val)))
      by (apply text_valued_set_text, Hd).
    destruct (derive_framerate_outcome _ Ht) as [[fr ->]| ->];
      [|left; reflexivity].
    cbn [bind]. apply IH.
    + apply text_valued_set_framerate, Ht.
    + intros l Hl. apply Hall. simpl; auto.
Qed.

Lemma init_loop_without_rate (data_lines : list string) : forall d,
  dict_get d "avg_frame_rate" = None ->
  (forall l, In l data_lines -> Py.contains "=" l = true) ->
  last_value "avg_frame_rate" data_lines = None ->
  exists self, FFStream.init_loop d data_lines = Ok self.
Proof.
  induction data_lines as [|line rest IH]; intros d Hd Hall Hlast.
  - exists d. reflexivity.
  - cbn [FFStream.init_loop last_value] in *.
    destruct (last_value "avg_frame_rate" rest) eqn:Hrest; [discriminate|].
    destruct (update_line_with_eq d line) as (key & val & tl & Hs & ->);
      [apply Hall; simpl; auto|].
    rewrite Hs in Hlast.
    destruct (String.eqb_spec key "avg_frame_rate") as [|Hkey]; [discriminate|].
    assert (Hd1 : dict_get (dict_set d key (VStr val)) "avg_frame_rate" = None)
      by (rewrite dict_get_set_other by exact Hkey; exact Hd).
    assert (Hfr : FFStream.derive_framerate (dict_set d key (VStr val))
                  = Ok VNone).
    { unfold FFStream.derive_framerate, get_default. rewrite Hd1. reflexivity. }
    rewrite Hfr. cbn [bind]. apply IH.
    + rewrite dict_get_set_other by discriminate. exact Hd1.
    + intros l Hl. apply Hall. simpl; auto.
    + reflexivity.
Qed.

(** X7: the construction of a record raises nothing but [ValueError]
    and [OverflowError]; when every line contains an equals sign the
    only possible error is the [OverflowError] of the frame-rate
    division, and when moreover no line is named [avg_frame_rate] the
    construction succeeds. *)
Theorem X7_construction_outcomes (data_lines : list string) :
  (forall e, FFStream.__init__ data_lines = Raise e ->
             e = ValueError \/ e = OverflowError)
  /\ ((forall l, In l data_lines -> Py.contains "=" l = true) ->
      (FFStream.__init__ data_lines = Raise OverflowError
       \/ exists self, FFStream.__init__ data_lines = Ok self)
      /\ (last_value "avg_frame_rate" data_lines = None ->
          exists self, FFStream.__init__ data_lines = Ok self)).
Proof.
  split.
  - intros e. apply init_loop_errors, text_valued_nil.
  - intros Hall. split.
    + apply init_loop_with_eq; [apply text_valued_nil|exact Hall].
    + intros Hlast. apply init_loop_without_rate; auto.
Qed.

Lemma X7_construction_outcomes_witness :
  exists self,
    FFStream.__init__ ["index=0"; "codec_type=video"; "TAG:title=a=b"]
    = Ok self.
Proof.
  destruct (X7_construction_outcomes
              ["index=0"; "codec_type=video"; "TAG:title=a=b"]) as (_ & H).
  apply H.
  - intros l [<-|[<-|[<-|[]]]]; reflexivity.
  - reflexivity.
Defined.

(** ** The typed accessors on a constructed record *)





(** ** The frame size *)



(** ** The textual form of a record *)

Local Ltac by_fields self :=
  unfold field_text, getitem;
  repeat match goal with
         | |- context [dict_get self ?k] =>
             destruct (dict_get self k) as [?v|]; [|reflexivity]
         | |- context [str_of_value ?v] =>
             destruct (str_of_value v) as [?t|?e]; [|reflexivity]
         end;
  reflexivity.

Lemma template_spec (self : FFStream.t) :
  FFStream.template self
  = if hides_repr_test self then Raise TypeError
    else if FFStream.is_video self then
      Ok "<Stream: #{index} [{codec_type}] {codec_long_name}, {framerate}, ({width}x{height})>"
    else if FFStream.is_audio self then
      Ok "<Stream: #{index} [{codec_type}] {codec_long_name}, channels: {channels} ({channel_layout}), {sample_rate}Hz> "
    else if FFStream.is_subtitle self || FFStream.is_attachment self then
      Ok "<Stream: #{index} [{codec_type}] {codec_long_name}>"
    else Ok "".
Proof.
  unfold FFStream.template, hides_repr_test, has_key,
    FFStream.call_is_video, FFStream.call_is_audio,
    FFStream.call_is_subtitle, FFStream.call_is_attachment, invoke.
  destruct (dict_get self "is_video"); [reflexivity|]. cbn [bind orb].
  destruct (FFStream.is_video self); [reflexivity|]. cbn [negb andb].
  destruct (dict_get self "is_audio"); [reflexivity|]. cbn [bind orb].
  destruct (FFStream.is_audio self); [reflexivity|]. cbn [negb andb].
  destruct (dict_get self "is_subtitle"); [reflexivity|]. cbn [bind orb].
  destruct (FFStream.is_subtitle self); [reflexivity|]. cbn [negb andb orb].
  destruct (dict_get self "is_attachment"); [reflexivity|]. cbn [bind].
  destruct (FFStream.is_attachment self); reflexivity.
Qed.

Lemma repr_video (self : FFStream.t) :
  hides_repr_test self = false -> FFStream.is_video self = true ->
  FFStream.__repr__ self
  = fill self [("<Stream: #", "index"); (" [", "codec_type");
               ("] ", "codec_long_name"); (", ", "framerate");
               (", (", "width"); ("x", "height")] ")>".
Proof.
  intros Hh Hv. unfold FFStream.__repr__. rewrite template_spec, Hh, Hv.
  unfold format. cbn -[dict_get str_of_value]. by_fields self.
Qed.

Lemma repr_audio (self : FFStream.t) :
  hides_repr_test self = false ->
  FFStream.is_video self = false -> FFStream.is_audio self = true ->
  FFStream.__repr__ self
  = fill self [("<Stream: #", "index"); (" [", "codec_type");
               ("] ", "codec_long_name"); (", channels: ", "channels");
               (" (", "channel_layout"); ("), ", "sample_rate")] "Hz> ".
Proof.
  intros Hh Hv Ha. unfold FFStream.__repr__. rewrite template_spec, Hh, Hv, Ha.
  unfold format. cbn -[dict_get str_of_value]. by_fields self.
Qed.

Lemma repr_subtitle_attachment (self : FFStream.t) :
  hides_repr_test self = false ->
  FFStream.is_video self = false -> FFStream.is_audio self = false ->
  FFStream.is_subtitle self || FFStream.is_attachment self = true ->
  FFStream.__repr__ self
  = fill self [("<Stream: #", "index"); (" [", "codec_type");
               ("] ", "codec_long_name")] ">".
Proof.
  intros Hh Hv Ha Hs. unfold FFStream.__repr__.
  rewrite template_spec, Hh, Hv, Ha, Hs.
  unfold format. cbn -[dict_get str_of_value]. by_fields self.
Qed.

(** X10: [__repr__] raises [TypeError] when the record has an entry
    named like one of the kind tests that it calls (video, audio,
    subtitle, attachment, up to the first that holds).  Otherwise it
    gives the empty text for a record of none of the four kinds, and
    for the other records it fills the template of the kind from the
    entries of the record, from left to right: the first field that
    the record does not have raises [KeyError], the first entry that
    [str] refuses raises [ValueError].  For a video record the fields
    are [index], [codec_type], [codec_long_name], [framerate], [width],
    [height], of which a constructed video record can lack only
    [index], [codec_long_name], [width] and [height]. *)
Theorem X10_repr (self : FFStream.t) :
  (hides_repr_test self = true ->
   FFStream.__repr__ self = Found (Raise TypeError))
  /\ (hides_repr_test self = false ->
      (FFStream.is_video self = false -> FFStream.is_audio self = false ->
       FFStream.is_subtitle self || FFStream.is_attachment self = false ->
       FFStream.__repr__ self = Found (Ok ""))
      /\ (FFStream.is_video self = true ->
          FFStream.__repr__ self
          = fill self [("<Stream: #", "index"); (" [", "codec_type");
                       ("] ", "codec_long_name"); (", ", "framerate");
                       (", (", "width"); ("x", "height")] ")>")
      /\ (FFStream.is_video self = false -> FFStream.is_audio self = true ->
          FFStream.__repr__ self
          = fill self [("<Stream: #", "index"); (" [", "codec_type");
                       ("] ", "codec_long_name");
                       (", channels: ", "channels");
                       (" (", "channel_layout"); ("), ", "sample_rate")]
              "Hz> ")
      /\ (FFStream.is_video self = false -> FFStream.is_audio self = false ->
          FFStream.is_subtitle self || FFStream.is_attachment self = true ->
          FFStream.__repr__ self
          = fill self [("<Stream: #", "index"); (" [", "codec_type");
                       ("] ", "codec_long_name")] ">"))
  /\ (forall data_lines k,
        FFStream.__init__ data_lines = Ok self ->
        FFStream.is_video self = true ->
        FFStream.__repr__ self = KeyError k ->
        In k ["index"; "codec_long_name"; "width"; "height"]).
Proof.
  split; [|split].
  - intros Hh. unfold FFStream.__repr__. rewrite template_spec, Hh.
    reflexivity.
  - intros Hh. split; [|split; [|split]].
    + intros Hv Ha Hs. unfold FFStream.__repr__.
      rewrite template_spec, Hh, Hv, Ha, Hs. reflexivity.
    + apply repr_video, Hh.
    + apply repr_audio, Hh.
    + apply repr_subtitle_attachment, Hh.
  - intros data_lines k Hinit Hv.
    destruct (hides_repr_test self) eqn:Hh.
    { unfold FFStream.__repr__. rewrite template_spec, Hh. discriminate. }
    rewrite (repr_video self Hh Hv).
    assert (Hct : dict_get self "codec_type" <> None).
    { apply codec_type_is_spec in Hv. congruence. }
    assert (Hfr : dict_get self "framerate" <> None).
    { destruct data_lines as [|l ls].
      - injection Hinit as <-. discriminate Hv.
      - destruct (init_loop_framerate (l :: ls) [] self) as (fr & Hg & _);
          [discriminate|exact Hinit|congruence]. }
    assert (Hpre : forall t r, prepend t r = KeyError k -> r = KeyError k).
    { intros t [[u|e]|key]; simpl; congruence. }
    cbn [fill].
    destruct (dict_get self "index");
      [|intros H; injection H as <-; simpl; auto].
    destruct (str_of_value v); [|discriminate]. intros H. apply Hpre in H.
    revert H.
    destruct (dict_get self "codec_type"); [|contradiction].
    destruct (str_of_value v0); [|discriminate]. intros H. apply Hpre in H.
    revert H.
    destruct (dict_get self "codec_long_name");
      [|intros H; injection H as <-; simpl; auto].
    destruct (str_of_value v1); [|discriminate]. intros H. apply Hpre in H.
    revert H.
    destruct (dict_get self "framerate"); [|contradiction].
    destruct (str_of_value v2); [|discriminate]. intros H. apply Hpre in H.
    revert H.
    destruct (dict_get self "width");
      [|intros H; injection H as <-; simpl; auto].
    destruct (str_of_value v3); [|discriminate]. intros H. apply Hpre in H.
    revert H.
    destruct (dict_get self "height");
      [|intros H; injection H as <-; simpl; auto].
    destruct (str_of_value v4); discriminate.
Qed.

Lemma X10_repr_witness :
  FFStream.__repr__
    [("index", VStr "0"); ("framerate", VInt 25);
     ("codec_type", VStr "video"); ("codec_long_name", VStr "H.264");
     ("avg_frame_rate", VStr "25/1"); ("width", VStr "640");
     ("height", VStr "480")]
  = Found (Ok "<Stream: #0 [video] H.264, 25, (640x480)>")
  /\ FFStream.__repr__
       [("index", VStr "3"); ("framerate", VNone); ("codec_type", VStr "data")]
     = Found (Ok "")
  /\ FFStream.__repr__ [("is_video", VStr "1"); ("framerate", VNone)]
     = Found (Raise TypeError).
Proof.
  split; [|split].
  - destruct (X10_repr
                [("index", VStr "0"); ("framerate", VInt 25);
                 ("codec_type", VStr "video"); ("codec_long_name", VStr "H.264");
                 ("avg_frame_rate", VStr "25/1"); ("width", VStr "640");
                 ("height", VStr "480")]) as (_ & H & _).
    destruct (H eq_refl) as (_ & Hv & _).
    rewrite (Hv eq_refl). vm_compute. reflexivity.
  - destruct (X10_repr
                [("index", VStr "3"); ("framerate", VNone);
                 ("codec_type", VStr "data")]) as (_ & H & _).
    destruct (H eq_refl) as (Hn & _).
    exact (Hn eq_refl eq_refl eq_refl).
  - destruct (X10_repr [("is_video", VStr "1"); ("framerate", VNone)])
      as (H & _).
    exact (H eq_refl).
Defined.

(** ** What the two patterns match *)

Section Patterns.
Local Open Scope string_scope.

Lemma match_one (p : ascii -> bool) (re : Re.regex) (s : string) :
  Re.match_here (Re.one p :: re) s
  = match s with
    | EmptyString => None
    | String c s' => if p c then option_map S (Re.match_here re s') else None
    end.
Proof.
  cbn [Re.match_here Re.one Re.cls Re.rmin Re.rmax].
  destruct s as [|c s']; [reflexivity|].
  cbn [Re.match_rep Nat.pred]. destruct (p c); [|reflexivity].
  destruct s'; cbn [Re.match_rep]; destruct (Re.match_here re _); reflexivity.
Qed.

Lemma match_lit (w : string) (re : Re.regex) : forall s n,
  Re.match_here (Re.lit w ++ re)%list s = Some n
  <-> exists s' n', s = w ++ s' /\ Re.match_here re s' = Some n'
                    /\ n = (String.length w + n')%nat.
Proof.
  induction w as [|c w IH]; intros s n; cbn [Re.lit app].
  - split.
    + intros H. exists s, n. auto.
    + intros (s' & n' & -> & H & ->). exact H.
  - rewrite match_one. split.
    + destruct s as [|c' s0]; [discriminate|].
      destruct (Ascii.eqb_spec c c') as [<-|]; [|discriminate].
      destruct (Re.match_here (Re.lit w ++ re)%list s0) as [m|] eqn:Hm;
        [|discriminate].
      intros H. injection H as <-.
      apply IH in Hm as (s' & n' & -> & Hre & ->).
      exists s', n'. auto.
    + intros (s' & n' & -> & Hre & ->). cbn [String.append].
      rewrite Ascii.eqb_refl.
      assert (Hm : Re.match_here (Re.lit w ++ re)%list (w ++ s')
                   = Some (String.length w + n')%nat)
        by (apply IH; eauto).
      rewrite Hm. reflexivity.
Qed.

Lemma match_rep_sound (p : ascii -> bool) (k : string -> option nat) :
  forall hi lo s n,
    Re.match_rep p k lo hi s = Some n ->
    exists u s' n',
      s = u ++ s' /\ all_chars p u = true
      /\ (lo <= String.length u <= hi)%nat
      /\ k s' = Some n' /\ n = (String.length u + n')%nat.
Proof.
  assert (Hstop : forall lo hi s n,
             match lo with O => k s | S _ => None end = Some n ->
             exists u s' n',
               s = u ++ s' /\ all_chars p u = true
               /\ (lo <= String.length u <= hi)%nat
               /\ k s' = Some n' /\ n = (String.length u + n')%nat).
  { intros lo hi s n H. destruct lo; [|discriminate].
    exists "", s, n. simpl. repeat split; auto; lia. }
  induction hi as [|hi IH]; intros lo s n; cbn [Re.match_rep].
  - apply Hstop.
  - destruct s as [|c s0]; [apply Hstop|].
    destruct (p c) eqn:Hc; [|apply Hstop].
    destruct (Re.match_rep p k (Nat.pred lo) hi s0) as [m|] eqn:Hm;
      [|apply Hstop].
    intros H. injection H as <-.
    apply IH in Hm as (u & s' & n' & -> & Hu & Hlen & Hk & ->).
    exists (String c u), s', n'. cbn [String.append all_chars String.length].
    rewrite Hc, Hu. repeat split; auto; lia.
Qed.

Lemma match_rep_complete (p : ascii -> bool) (k : string -> option nat) :
  forall hi lo u s' n',
    all_chars p u = true -> (lo <= String.length u <= hi)%nat ->
    k s' = Some n' ->
    exists n, Re.match_rep p k lo hi (u ++ s') = Some n.
Proof.
  induction hi as [|hi IH]; intros lo u s' n' Hu Hlen Hk.
  - destruct u; [|simpl in Hlen; lia]. assert (lo = O) as -> by (simpl in Hlen; lia).
    simpl. eauto.
  - destruct u as [|c u].
    + assert (lo = O) as -> by (simpl in Hlen; lia).
      cbn [String.append Re.match_rep].
      destruct s' as [|c s0]; [eauto|].
      destruct (p c); [|eauto].
      destruct (Re.match_rep p k (Nat.pred 0) hi s0); eauto.
    + cbn [all_chars] in Hu. apply andb_true_iff in Hu as [Hc Hu].
      cbn [String.append Re.match_rep]. rewrite Hc.
      destruct (IH (Nat.pred lo) u s' n' Hu) as [n Hn];
        [simpl in Hlen; lia|exact Hk|].
      rewrite Hn. eauto.
Qed.

Lemma search_sound (re : Re.regex) : forall s i n,
  Re.search re s = Some (i, n) ->
  exists pre s', s = pre ++ s' /\ String.length pre = i
                 /\ Re.match_here re s' = Some n.
Proof.
  induction s as [|c s IH]; intros i n; cbn [Re.search].
  - destruct (Re.match_here re "") as [m|] eqn:Hm; [|discriminate].
    intros H. injection H as <- <-. exists "", "". auto.
  - destruct (Re.match_here re (String c s)) as [m|] eqn:Hm.
    + intros H. injection H as <- <-. exists "", (String c s). auto.
    + destruct (Re.search re s) as [[j m]|] eqn:Hs; [|discriminate].
      intros H. injection H as <- <-.
      destruct (IH j m eq_refl) as (pre & s' & -> & <- & Hre).
      exists (String c pre), s'. auto.
Qed.

Lemma search_complete (re : Re.regex) : forall pre s' n,
  Re.match_here re s' = Some n ->
  exists i m, Re.search re (pre ++ s') = Some (i, m).
Proof.
  induction pre as [|c pre IH]; intros s' n Hre.
  - cbn [String.append]. destruct s'; cbn [Re.search]; rewrite Hre; eauto.
  - cbn [String.append Re.search].
    destruct (Re.match_here re (String c (pre ++ s'))); [eauto|].
    destruct (IH s' n Hre) as (i & m & ->). eauto.
Qed.

Lemma length_append' (a b : string) :
  String.length (a ++ b) = (String.length a + String.length b)%nat.
Proof. induction a as [|x a IH]; simpl; congruence. Qed.

End Patterns.

Section DurationPattern.
Local Open Scope string_scope.

Lemma stream_re_here (s : string) (n : nat) :
  Re.match_here FFProbe.stream_re s = Some n
  -> exists h post,
       s = "Duration: " ++ h ++ ":" ++ post
       /\ h <> "" /\ all_chars hour_char h = true.
Proof.
  unfold FFProbe.stream_re. intros H.
  apply match_lit in H as (s1 & n1 & -> & H & _).
  cbn [app Re.match_here Re.cls Re.rmin Re.rmax] in H.
  apply match_rep_sound in H as (h & s2 & n2 & -> & Hh & Hlen & Hk & _).
  change (Re.match_here (Re.lit ":") s2 = Some n2) in Hk.
  cbn [Re.lit] in Hk. rewrite match_one in Hk.
  destruct s2 as [|c post]; [discriminate|].
  destruct (Ascii.eqb_spec ":" c) as [<-|]; [|discriminate].
  exists h, post. split; [reflexivity|]. split; [|exact Hh].
  intros ->. simpl in Hlen. lia.
Qed.

Lemma stream_re_matches (h post : string) :
  h <> "" -> all_chars hour_char h = true ->
  exists n,
    Re.match_here FFProbe.stream_re ("Duration: " ++ h ++ ":" ++ post) = Some n.
Proof.
  intros Hne Hh. unfold FFProbe.stream_re.
  destruct (match_rep_complete hour_char (Re.match_here (Re.lit ":"))
              (String.length (h ++ ":" ++ post)) 1 h (":" ++ post) 1 Hh)
    as [n Hn].
  - rewrite length_append'. destruct h; [contradiction|simpl; lia].
  - reflexivity.
  - eexists. apply match_lit. exists (h ++ ":" ++ post), n.
    split; [reflexivity|]. split; [exact Hn|reflexivity].
Qed.

(** X11: the duration pattern of the container scan is satisfied
    exactly by the lines that contain [Duration: ], then one or more of
    the three characters 0, = and 9, then a colon: the class of the
    pattern holds these three characters, not the ten digits, so an
    hour field with any other digit is not recognized. *)
Theorem X11_duration_pattern (line : string) :
  announces line = true
  <-> exists pre h post,
        line = pre ++ "Duration: " ++ h ++ ":" ++ post
        /\ h <> "" /\ all_chars hour_char h = true.
Proof.
  unfold announces. split.
  - destruct (Re.search FFProbe.stream_re line) as [[i n]|] eqn:Hs;
      [intros _|discriminate].
    apply search_sound in Hs as (pre & s' & -> & _ & Hre).
    apply stream_re_here in Hre as (h & post & -> & Hne & Hh).
    exists pre, h, post. auto.
  - intros (pre & h & post & -> & Hne & Hh).
    destruct (stream_re_matches h post Hne Hh) as [n Hn].
    destruct (search_complete FFProbe.stream_re pre _ n Hn) as (i & m & ->).
    reflexivity.
Qed.

Lemma X11_duration_pattern_witness :
  announces ("  " ++ "Duration: " ++ "09" ++ ":" ++ "59:59.00, bitrate: N/A")
  = true.
Proof.
  apply X11_duration_pattern.
  exists "  ", "09", "59:59.00, bitrate: N/A".
  split; [reflexivity|]. split; [discriminate|reflexivity].
Defined.

End DurationPattern.

(** ** A duration line without a bit rate *)

(** X12: a diagnostic line that matches the duration pattern but has no
    match of the bit-rate pattern (as when the tool prints no number)
    makes the container scan raise [AttributeError]; the lines after it
    are not looked at, and an analysis whose blocks were all read
    without error ends with this error instead of a result. *)
Theorem X12_missing_bit_rate_raises
  (pre post : list string) (line : string) (cs : list FFContainer.t) :
  FFProbe.container_scan [] pre = Ok cs ->
  announces line = true -> has_bit_rate line = false ->
  FFProbe.container_scan [] (pre ++ line :: post) = Raise AttributeError
  /\ (forall stdout stderr p,
        FFProbe.__init__ stdout stderr [] = Ok p ->
        FFProbe.__init__ stdout stderr (pre ++ line :: post)
        = Raise AttributeError).
Proof.
  intros Hpre Ha Hb.
  assert (Hscan : FFProbe.container_scan [] (pre ++ line :: post)
                  = Raise AttributeError).
  { rewrite container_scan_app, Hpre. cbn [bind FFProbe.container_scan].
    unfold FFProbe.container_step, Re.search_group.
    unfold announces in Ha. unfold has_bit_rate in Hb.
    destruct (Re.search FFProbe.stream_re line); [|discriminate].
    destruct (Re.search FFProbe.bit_re line); [discriminate|]. reflexivity. }
  split; [exact Hscan|].
  intros stdout stderr p Hp. unfold FFProbe.__init__ in *.
  destruct (FFProbe.scan FFProbe.initial stdout) as [st1|]; [|discriminate].
  cbn [bind] in *.
  destruct (FFProbe.scan st1 stderr) as [st2|]; [|discriminate].
  cbn [bind] in *.
  destruct (FFProbe.classify (FFProbe.parsed st2)) as [k|]; [|discriminate].
  cbn [bind] in *. rewrite Hscan. reflexivity.
Qed.

Lemma X12_missing_bit_rate_raises_witness :
  FFProbe.container_scan []
    (["Input #0, matroska, from 'a.mkv':"]
     ++ "  Duration: 00:00:05.00, start: 0.000000, bitrate: N/A"
     :: ["  Duration: 00:00:05.00, start: 0.000000, bitrate: 128 kb/s"])
  = Raise AttributeError.
Proof.
  apply (X12_missing_bit_rate_raises
           ["Input #0, matroska, from 'a.mkv':"]
           ["  Duration: 00:00:05.00, start: 0.000000, bitrate: 128 kb/s"]
           "  Duration: 00:00:05.00, start: 0.000000, bitrate: N/A" []);
    reflexivity.
Defined.

(** ** The recovered bit rate *)

Section BitRate.
Local Open Scope string_scope.

Lemma container_scan_members (lines : list string) : forall acc cs c,
  FFProbe.container_scan acc lines = Ok cs -> In c cs ->
  In c acc
  \/ exists line m,
       In line lines /\ Re.search_group FFProbe.bit_re line = Some m
       /\ c = [("container_bitrate", VStr (Re.sub_non_digits m))].
Proof.
  induction lines as [|l lines IH]; intros acc cs c H Hin.
  - injection H as <-. auto.
  - cbn [FFProbe.container_scan] in H. apply bind_Ok in H as (acc' & Hstep & H).
    destruct (IH _ _ _ H Hin) as [Hacc|(line & m & Hl & Hm & Hc)].
    + unfold FFProbe.container_step in Hstep.
      destruct (Re.search FFProbe.stream_re l).
      * destruct (Re.search_group FFProbe.bit_re l) as [m|] eqn:Hm;
          [|discriminate].
        rewrite container_init_digits in Hstep. cbn [bind] in Hstep.
        injection Hstep as <-. apply in_app_iff in Hacc as [Hacc|[<-|[]]];
          [auto|].
        right. exists l, m. simpl. auto.
      * injection Hstep as <-. auto.
    + right. exists line, m. simpl. auto.
Qed.

(** X13: every container record of a result holds one entry, named
    [container_bitrate], with the digits of the first bit-rate match of
    its line.  The entry has the name of the accessor, so on every
    container record the call [container_bitrate()] finds the text
    instead of the method and raises [TypeError]: no result of the
    analysis has a container record that answers the call. *)
Theorem X13_container_bitrate_raises
  (stdout stderr mkverr : list string) (p : FFProbe.t) (c : FFContainer.t) :
  FFProbe.__init__ stdout stderr mkverr = Ok p ->
  In c (FFProbe.container p) ->
  (exists line m,
     In line mkverr /\ Re.search_group FFProbe.bit_re line = Some m
     /\ c = [("container_bitrate", VStr (Re.sub_non_digits m))])
  /\ FFContainer.call_container_bitrate c = Raise TypeError.
Proof.
  intros Hp Hin.
  apply init_Ok in Hp as (st1 & st2 & cs & _ & _ & Hcs & ->).
  cbn [FFProbe.container] in Hin.
  destruct (container_scan_members _ _ _ _ Hcs Hin)
    as [[]|(line & m & Hl & Hm & ->)].
  split; [exists line, m; auto|reflexivity].
Qed.

Lemma X13_container_bitrate_raises_witness :
  (exists line m,
     In line ["  Duration: 00:00:09.99, start: 0.000000, bitrate: 1536 kb/s"]
     /\ Re.search_group FFProbe.bit_re line = Some m
     /\ [("container_bitrate", VStr "1536")]
        = [("container_bitrate", VStr (Re.sub_non_digits m))])
  /\ FFContainer.call_container_bitrate [("container_bitrate", VStr "1536")]
     = Raise TypeError.
Proof.
  apply (X13_container_bitrate_raises [] []
           ["  Duration: 00:00:09.99, start: 0.000000, bitrate: 1536 kb/s"]
           (FFProbe.Probe [] [] [] [] []
              [[("container_bitrate", VStr "1536")]])).
  - reflexivity.
  - simpl. auto.
Defined.

End BitRate.

(** ** The textual form of a result *)

Lemma repr_items_texts (l : list FFStream.t) :
  (forall r, In r l -> has_text r) ->
  FFProbe.repr_items l = Found (Ok (texts l)).
Proof.
  induction l as [|r l IH]; intros Hall; [reflexivity|].
  cbn [FFProbe.repr_items texts map].
  destruct (Hall r) as [t Ht]; [simpl; auto|]. rewrite Ht.
  fold (texts l). rewrite IH by (intros x Hx; apply Hall; simpl; auto).
  reflexivity.
Qed.

Lemma str_list_texts (l : list FFStream.t) :
  (forall r, In r l -> has_text r) ->
  FFProbe.str_list l = Found (Ok (bracketed l)).
Proof.
  intros Hall. unfold FFProbe.str_list. rewrite repr_items_texts by exact Hall.
  reflexivity.
Qed.

Lemma str_list_fails (pre post : list FFStream.t) (r : FFStream.t) :
  (forall x, In x pre -> has_text x) -> ~ has_text r ->
  FFProbe.str_list (pre ++ r :: post) = FFStream.__repr__ r
  /\ forall t, FFProbe.str_list (pre ++ r :: post) <> Found (Ok t).
Proof.
  intros Hpre Hr. unfold FFProbe.str_list.
  assert (H : match FFStream.__repr__ r with
              | Found (Ok _) => False
              | Found (Raise e) =>
                  FFProbe.repr_items (pre ++ r :: post) = Found (Raise e)
              | KeyError k =>
                  FFProbe.repr_items (pre ++ r :: post) = KeyError k
              end).
  { induction pre as [|x pre IH]; cbn [app FFProbe.repr_items].
    - destruct (FFStream.__repr__ r) as [[t|e]|k] eqn:Hrr; [|reflexivity..].
      apply Hr. exists t. exact Hrr.
    - destruct (Hpre x) as [t ->]; [simpl; auto|].
      specialize (IH (fun y Hy => Hpre y (or_intror Hy))).
      destruct (FFStream.__repr__ r) as [[u|e]|k]; [exact IH|..];
        rewrite IH; reflexivity. }
  destruct (FFStream.__repr__ r) as [[t|e]|k]; [contradiction|..];
    rewrite H; split; (reflexivity || discriminate).
Qed.

Lemma app_eq_mid {A : Type} (l1 l2 post : list A) (r : A) : forall pre,
  l1 ++ l2 = pre ++ r :: post ->
  (exists post1, l1 = pre ++ r :: post1)
  \/ (exists pre2, pre = l1 ++ pre2 /\ l2 = pre2 ++ r :: post).
Proof.
  induction l1 as [|a l1 IH]; intros pre H.
  - right. exists pre. auto.
  - destruct pre as [|b pre]; cbn [app] in H; injection H as -> H.
    + left. exists l1. reflexivity.
    + destruct (IH pre H) as [(post1 & ->)|(pre2 & -> & ->)].
      * left. exists post1. reflexivity.
      * right. exists pre2. auto.
Qed.

(** X14: the [__repr__] of a result shows the four partition lists, in
    the order video, audio, subtitle, attachment, each as the bracketed,
    comma-separated texts of its records; it returns whenever every
    record of the four lists has a text.  The first record, in that
    order, whose own [__repr__] does not return makes the whole call
    end the same way, with the same [KeyError] or the same exception. *)
Theorem X14_probe_repr (p : FFProbe.t) :
  ((forall r, In r (FFProbe.video p ++ FFProbe.audio p ++ FFProbe.subtitle p
                    ++ FFProbe.attachment p) -> has_text r) ->
   FFProbe.__repr__ p
   = Found (Ok (join ["<FFprobe: "; bracketed (FFProbe.video p); ", ";
                      bracketed (FFProbe.audio p); ", ";
                      bracketed (FFProbe.subtitle p); ", ";
                      bracketed (FFProbe.attachment p); ">"])))
  /\ (forall pre r post,
        FFProbe.video p ++ FFProbe.audio p ++ FFProbe.subtitle p
        ++ FFProbe.attachment p = pre ++ r :: post ->
        (forall x, In x pre -> has_text x) ->
        ~ has_text r ->
        FFProbe.__repr__ p = FFStream.__repr__ r).
Proof.
  unfold FFProbe.__repr__. split.
  - intros Hall.
    cbn -[FFProbe.str_list].
    rewrite !str_list_texts
      by (intros r Hr; apply Hall; rewrite !in_app_iff; auto).
    cbn [prepend join String.append]. reflexivity.
  - intros pre r post Hsplit Hpre Hr.
    assert (Hfail : forall l : list FFStream.t,
               FFProbe.str_list l = FFStream.__repr__ r ->
               (forall t, FFProbe.str_list l <> Found (Ok t)) ->
               forall X : string -> lookup (result string),
                 match FFProbe.str_list l with
                 | Found (Ok t) => X t
                 | other => other
                 end = FFStream.__repr__ r).
    { intros l <- Hne X.
      destruct (FFProbe.str_list l) as [[t|e]|k]; [|reflexivity..].
      destruct (Hne t eq_refl). }
    cbn -[FFProbe.str_list].
    apply app_eq_mid in Hsplit as [(post1 & Hv)|(pre2 & -> & Hsplit)].
    { destruct (str_list_fails pre post1 r Hpre Hr) as (He & Hne).
      rewrite Hv. rewrite (Hfail _ He Hne).
      destruct (FFStream.__repr__ r) as [[t|e]|k] eqn:Hrr; [|reflexivity..].
      destruct Hr. exists t. exact Hrr. }
    rewrite (str_list_texts (FFProbe.video p))
      by (intros x Hx; apply Hpre, in_or_app; auto).
    assert (Hpre2 : forall x, In x pre2 -> has_text x)
      by (intros x Hx; apply Hpre, in_or_app; auto).
    clear Hpre. rename pre2 into pre. rename Hpre2 into Hpre.
    apply app_eq_mid in Hsplit as [(post1 & Hv)|(pre2 & -> & Hsplit)].
    { destruct (str_list_fails pre post1 r Hpre Hr) as (He & Hne).
      rewrite Hv. cbn [prepend]. rewrite (Hfail _ He Hne).
      destruct (FFStream.__repr__ r) as [[t|e]|k] eqn:Hrr; [|reflexivity..].
      destruct Hr. exists t. exact Hrr. }
    rewrite (str_list_texts (FFProbe.audio p))
      by (intros x Hx; apply Hpre, in_or_app; auto).
    assert (Hpre2 : forall x, In x pre2 -> has_text x)
      by (intros x Hx; apply Hpre, in_or_app; auto).
    clear Hpre. rename pre2 into pre'. rename Hpre2 into Hpre.
    apply app_eq_mid in Hsplit as [(post1 & Hv)|(pre2 & -> & Hsplit)].
    { destruct (str_list_fails pre' post1 r Hpre Hr) as (He & Hne).
      rewrite Hv. cbn [prepend]. rewrite (Hfail _ He Hne).
      destruct (FFStream.__repr__ r) as [[t|e]|k] eqn:Hrr; [|reflexivity..].
      destruct Hr. exists t. exact Hrr. }
    rewrite (str_list_texts (FFProbe.subtitle p))
      by (intros x Hx; apply Hpre, in_or_app; auto).
    assert (Hpre2 : forall x, In x pre2 -> has_text x)
      by (intros x Hx; apply Hpre, in_or_app; auto).
    destruct (str_list_fails pre2 post r Hpre2 Hr) as (He & Hne).
    rewrite Hsplit. cbn [prepend]. rewrite (Hfail _ He Hne).
    destruct (FFStream.__repr__ r) as [[t|e]|k] eqn:Hrr; [|reflexivity..].
    destruct Hr. exists t. exact Hrr.
Qed.

Lemma X14_probe_repr_witness :
  FFProbe.__repr__
    (probe_of [[("index", VStr "0"); ("framerate", VNone);
                ("codec_type", VStr "subtitle");
                ("codec_long_name", VStr "ASS")];
               [("index", VStr "1"); ("framerate", VNone);
                ("codec_type", VStr "data")]] [])
  = Found (Ok "<FFprobe: [], [], [<Stream: #0 [subtitle] ASS>], []>")
  /\ FFProbe.__repr__
       (probe_of [[("index", VStr "0"); ("framerate", VNone);
                   ("codec_type", VStr "audio")];
                  [("framerate", VNone); ("codec_type", VStr "attachment")]]
          [])
     = KeyError "codec_long_name".
Proof.
  split.
  - destruct (X14_probe_repr
                (probe_of [[("index", VStr "0"); ("framerate", VNone);
                            ("codec_type", VStr "subtitle");
                            ("codec_long_name", VStr "ASS")];
                           [("index", VStr "1"); ("framerate", VNone);
                            ("codec_type", VStr "data")]] [])) as (H & _).
    rewrite H; [reflexivity|].
    intros r [<-|[]]. eexists. reflexivity.
  - destruct (X14_probe_repr
                (probe_of [[("index", VStr "0"); ("framerate", VNone);
                            ("codec_type", VStr "audio")];
                           [("framerate", VNone);
                            ("codec_type", VStr "attachment")]] []))
      as (_ & H).
    rewrite (H [] [("index", VStr "0"); ("framerate", VNone);
                   ("codec_type", VStr "audio")]
               [[("framerate", VNone); ("codec_type", VStr "attachment")]]).
    + reflexivity.
    + reflexivity.
    + intros x [].
    + intros [t Ht]. vm_compute in Ht. discriminate Ht.
Defined.

(** ** Container records *)

Section ContainerLines.
Local Open Scope string_scope.

Lemma split_one_piece (s v : string) :
  Py.split "=" s = [v] -> s = v /\ Py.contains "=" s = false.
Proof.
  revert v. induction s as [|c s IH]; intros v.
  - intros H. injection H as <-. auto.
  - cbn [Py.split]. rewrite contains_eq_cons.
    destruct (Ascii.eqb c "=").
    + destruct (Py.split "=" s) as [|p ps] eqn:Hs;
        [exfalso; exact (split_nonempty _ _ Hs)|discriminate].
    + destruct (Py.split "=" s) as [|p ps] eqn:Hs;
        [exfalso; exact (split_nonempty _ _ Hs)|].
      intros H. injection H as <- ->.
      destruct (IH p eq_refl) as [-> Hc]. auto.
Qed.

Lemma split_two_pieces (s k v : string) :
  Py.split "=" s = [k; v] ->
  s = k ++ String "=" v
  /\ Py.contains "=" k = false /\ Py.contains "=" v = false.
Proof.
  revert k. induction s as [|c s IH]; intros k; [discriminate|].
  cbn [Py.split].
  destruct (Ascii.eqb_spec c "=") as [->|Hne].
  - intros H. injection H as <- H.
    apply split_one_piece in H as [-> Hc]. auto.
  - destruct (Py.split "=" s) as [|p ps] eqn:Hs;
      [exfalso; exact (split_nonempty _ _ Hs)|].
    intros H. injection H as <- ->.
    destruct (IH p eq_refl) as (-> & Hp & Hv).
    split; [reflexivity|]. split; [|exact Hv].
    rewrite contains_eq_cons, Hp.
    destruct (Ascii.eqb_spec c "="); [contradiction|reflexivity].
Qed.

(** X15: a line is accepted by [FFContainer] exactly when its stripped
    text has one equals sign, the name before it and the value after
    it; every other line, also one with two equals signs that
    [FFStream] would accept, raises [ValueError], and nothing else is
    ever raised. *)
Theorem X15_container_line (d : dict) (line : string) :
  (forall d', FFContainer.update_line d line = Ok d'
              <-> exists name val,
                    Py.strip line = name ++ String "=" val
                    /\ Py.contains "=" name = false
                    /\ Py.contains "=" val = false
                    /\ d' = dict_set d name (VStr val))
  /\ (forall e, FFContainer.update_line d line = Raise e -> e = ValueError)
  /\ (forall name val tail,
        Py.strip line = name ++ String "=" (val ++ String "=" tail) ->
        Py.contains "=" name = false -> Py.contains "=" val = false ->
        FFContainer.update_line d line = Raise ValueError
        /\ FFStream.update_line d line
           = (fr <- FFStream.derive_framerate (dict_set d name (VStr val)) ;;
              Ok (dict_set (dict_set d name (VStr val)) "framerate" fr))).
Proof.
  unfold FFContainer.update_line, FFStream.update_line. split; [|split].
  - intros d'. split.
    + destruct (Py.split "=" (Py.strip line)) as [|k [|v [|x xs]]] eqn:Hs;
        try discriminate.
      intros H. injection H as <-.
      apply split_two_pieces in Hs as (-> & Hk & Hv).
      exists k, v. auto.
    + intros (name & val & -> & Hn & Hv & ->).
      rewrite split_eq_app, split_no_eq by assumption. reflexivity.
  - intros e.
    destruct (Py.split "=" (Py.strip line)) as [|k [|v [|x xs]]];
      try discriminate; intros H; injection H as <-; reflexivity.
  - intros name val tail -> Hn Hv.
    rewrite split_eq_app, split_eq_app by assumption.
    destruct (Py.split "=" tail) as [|t ts] eqn:Ht;
      [exfalso; exact (split_nonempty _ _ Ht)|].
    split; reflexivity.
Qed.

Lemma X15_container_line_witness :
  FFContainer.update_line [] " container_bitrate=128 "
  = Ok [("container_bitrate", VStr "128")]
  /\ FFContainer.update_line [] "TAG:title=a=b" = Raise ValueError.
Proof.
  destruct (X15_container_line [] " container_bitrate=128 ") as (H1 & _).
  destruct (X15_container_line [] "TAG:title=a=b") as (_ & _ & H2).
  split.
  - apply H1. exists "container_bitrate", "128". repeat split; reflexivity.
  - apply (H2 "TAG:title" "a" "b"); reflexivity.
Defined.

End ContainerLines.

(** ** More on the derived frame rate *)



(** ** Errors of the analysis *)

Lemma container_scan_errors (lines : list string) : forall acc e,
  FFProbe.container_scan acc lines = Raise e -> e = AttributeError.
Proof.
  induction lines as [|l lines IH]; intros acc e; [discriminate|].
  cbn [FFProbe.container_scan].
  destruct (FFProbe.container_step acc l) as [acc'|e0] eqn:Hs; cbn [bind].
  - apply IH.
  - intros H. injection H as <-. unfold FFProbe.container_step in Hs.
    destruct (Re.search FFProbe.stream_re l); [|discriminate].
    destruct (Re.search_group FFProbe.bit_re l) as [m|];
      [|injection Hs as <-; reflexivity].
    rewrite container_init_digits in Hs. discriminate.
Qed.

(** X17: an analysis raises nothing but [ValueError] and
    [OverflowError], from the construction of a stream record,
    [TypeError], from the classification of a record that has an entry
    named like a kind test, and [AttributeError], from the container
    scan.  The errors come in that order: an error of the block loops
    or of the classification is raised whatever the diagnostic lines of
    the second invocation are, [TypeError] only when all blocks were
    read without error, and [AttributeError] only when the records were
    classified as well. *)
Theorem X17_analysis_errors (stdout stderr mkverr : list string) (e : exn) :
  FFProbe.__init__ stdout stderr mkverr = Raise e ->
  (e = ValueError \/ e = OverflowError \/ e = TypeError
   \/ e = AttributeError)
  /\ (e = AttributeError ->
      exists p, FFProbe.__init__ stdout stderr [] = Ok p)
  /\ (e = TypeError ->
      exists st1 st2,
        FFProbe.scan FFProbe.initial stdout = Ok st1
        /\ FFProbe.scan st1 stderr = Ok st2
        /\ existsb hides_kind_test (FFProbe.parsed st2) = true)
  /\ (e <> AttributeError ->
      forall mkverr', FFProbe.__init__ stdout stderr mkverr' = Raise e).
Proof.
  intros H. rewrite init_probe_of in H.
  destruct (FFProbe.scan FFProbe.initial stdout) as [st1|e1] eqn:H1;
    cbn [bind] in H.
  - destruct (FFProbe.scan st1 stderr) as [st2|e2] eqn:H2; cbn [bind] in H.
    + destruct (existsb hides_kind_test (FFProbe.parsed st2)) eqn:Hh.
      * injection H as <-. split; [auto|]. split; [discriminate|]. split.
        -- intros _. exists st1, st2. auto.
        -- intros _ mkverr'. rewrite init_probe_of, H1. cbn [bind].
           rewrite H2. cbn [bind]. rewrite Hh. reflexivity.
      * destruct (FFProbe.container_scan [] mkverr) as [cs|e3] eqn:H3;
          cbn [bind] in H; [discriminate|].
        injection H as <-.
        apply container_scan_errors in H3 as ->.
        split; [auto|]. split; [|split].
        -- intros _. rewrite init_probe_of, H1. cbn [bind].
           rewrite H2. cbn [bind]. rewrite Hh. eexists. reflexivity.
        -- discriminate.
        -- intros Hne. exfalso. apply Hne. reflexivity.
    + injection H as <-.
      assert (Hall : forall mkverr',
                 FFProbe.__init__ stdout stderr mkverr' = Raise e2).
      { intros mkverr'. rewrite init_probe_of, H1. cbn [bind].
        rewrite H2. reflexivity. }
      destruct (scan_errors _ _ _ H2) as [->| ->];
        (split; [auto|]; split; [discriminate|]; split;
         [discriminate|intros _; exact Hall]).
  - injection H as <-.
    assert (Hall : forall mkverr',
               FFProbe.__init__ stdout stderr mkverr' = Raise e1).
    { intros mkverr'. rewrite init_probe_of, H1. reflexivity. }
    destruct (scan_errors _ _ _ H1) as [->| ->];
      (split; [auto|]; split; [discriminate|]; split;
       [discriminate|intros _; exact Hall]).
Qed.

Lemma X17_analysis_errors_witness :
  FFProbe.__init__ ["[STREAM]"; "codec_type"; "[/STREAM]"] []
    ["  Duration: 00:00:05.00, bitrate: 128 kb/s"]
  = Raise ValueError
  /\ FFProbe.__init__ ["[STREAM]"; "is_audio=1"; "[/STREAM]"] []
       ["  Duration: 00:00:05.00, bitrate: 128 kb/s"]
     = Raise TypeError.
Proof.
  split.
  - destruct (X17_analysis_errors ["[STREAM]"; "codec_type"; "[/STREAM]"] []
                ["  Duration: 00:00:05.00, bitrate: N/A"] ValueError eq_refl)
      as (_ & _ & _ & H).
    apply H. discriminate.
  - destruct (X17_analysis_errors ["[STREAM]"; "is_audio=1"; "[/STREAM]"] []
                ["  Duration: 00:00:05.00, bitrate: N/A"] TypeError eq_refl)
      as (_ & _ & _ & H).
    apply H. discriminate.
Defined.

(** ** Whitespace around a line *)

Section Whitespace.
Local Open Scope string_scope.

Lemma lstrip_spaces (ws s : string) :
  all_chars Py.isspace ws = true -> Py.lstrip (ws ++ s) = Py.lstrip s.
Proof.
  induction ws as [|c ws IH]; [reflexivity|].
  cbn [all_chars]. intros H. apply andb_true_iff in H as [Hc H].
  cbn [String.append Py.lstrip]. rewrite Hc. apply IH, H.
Qed.

Lemma rstrip_spaces (ws : string) :
  all_chars Py.isspace ws = true -> Py.rstrip ws = "".
Proof.
  induction ws as [|c ws IH]; [reflexivity|].
  cbn [all_chars]. intros H. apply andb_true_iff in H as [Hc H].
  cbn [Py.rstrip]. rewrite (IH H), Hc. reflexivity.
Qed.

Lemma rstrip_app_spaces (s ws : string) :
  all_chars Py.isspace ws = true -> Py.rstrip (s ++ ws) = Py.rstrip s.
Proof.
  intros Hws. induction s as [|c s IH].
  - apply rstrip_spaces, Hws.
  - cbn [String.append Py.rstrip]. rewrite IH. reflexivity.
Qed.

Lemma strip_app_spaces (s ws : string) :
  all_chars Py.isspace ws = true -> Py.strip (s ++ ws) = Py.strip s.
Proof.
  intros Hws. unfold Py.strip. induction s as [|c s IH].
  - cbn [String.append].
    rewrite <- (lstrip_spaces ws "" Hws).
    replace (ws ++ "") with ws
      by (clear; induction ws as [|x ws IH]; simpl; congruence).
    assert (Hl : forall w, all_chars Py.isspace w = true -> Py.lstrip w = "").
    { clear. induction w as [|x w IH]; [reflexivity|].
      cbn [all_chars]. intros H. apply andb_true_iff in H as [Hx H].
      cbn [Py.lstrip]. rewrite Hx. apply IH, H. }
    rewrite (Hl ws Hws). reflexivity.
  - cbn [String.append Py.lstrip]. destruct (Py.isspace c); [exact IH|].
    apply (rstrip_app_spaces (String c s) ws Hws).
Qed.

Lemma strip_padded (ws1 s ws2 : string) :
  all_chars Py.isspace ws1 = true -> all_chars Py.isspace ws2 = true ->
  Py.strip (ws1 ++ s ++ ws2) = Py.strip s.
Proof.
  intros H1 H2. unfold Py.strip. rewrite lstrip_spaces by exact H1.
  apply (strip_app_spaces s ws2 H2).
Qed.

(** X18: whitespace before and after a line plays no part: a padded
    line is decoded by [FFStream] and by [FFContainer] as the line
    itself.  Whitespace next to the equals sign is kept, in the name as
    in the value. *)
Theorem X18_padding_ignored (d : dict) (ws1 line ws2 : string) :
  all_chars Py.isspace ws1 = true -> all_chars Py.isspace ws2 = true ->
  FFStream.update_line d (ws1 ++ line ++ ws2) = FFStream.update_line d line
  /\ FFContainer.update_line d (ws1 ++ line ++ ws2)
     = FFContainer.update_line d line
  /\ FFContainer.update_line d (ws1 ++ "bit rate = 5" ++ ws2)
     = Ok (dict_set d "bit rate " (VStr " 5")).
Proof.
  intros H1 H2. unfold FFStream.update_line, FFContainer.update_line.
  rewrite !strip_padded by assumption. repeat split; reflexivity.
Qed.

Lemma X18_padding_ignored_witness :
  FFStream.update_line [] ("  " ++ "index=0" ++ String "009" "")
  = FFStream.update_line [] "index=0".
Proof.
  apply (X18_padding_ignored [] "  " "index=0" (String "009" ""));
    reflexivity.
Defined.

End Whitespace.
